(** * build.py: the cross-platform CEF build driver

    A shallow embedding of [build.py] (the pure Python build driver of
    BuildingCEF) and the properties of its orchestration logic.

    The driver is sequential Python that talks to the outside through a
    handful of calls: [platform.system()], the Windows elevation query,
    [subprocess.run], [os.makedirs], [open(..., 'w')], [json.load],
    [datetime.now()] and [print].  Everything the outside decides is
    collected in a record [env].  A Python statement becomes a function
    from the file system to a [run]: the value returned or the exception
    raised, the file system left behind, and the effects performed, in
    order.  These functions form the monad [M]; [try ... except] becomes
    [try_except]. *)

From Stdlib Require Import ZArith String Ascii List.
From Stdlib Require Import Floats.PrimFloat.
From stdpp Require Import gmap strings pretty.

Open Scope Z_scope.
Open Scope string_scope.

(** ** Python values and exceptions *)

(** The exception classes the driver can meet.  [KeyboardInterrupt] and
    [SystemExit] derive from [BaseException] only; all the others derive
    from [Exception]. *)
Inductive exc_class : Set :=
| KeyboardInterrupt
| SystemExit
| Exception
| OSError
| FileNotFoundError
| FileExistsError
| PermissionError
| ValueError
| JSONDecodeError
| AttributeError
| KeyError
| ImportError.

#[global] Instance exc_class_eq_dec : EqDecision exc_class.
Proof. solve_decision. Defined.

(** An exception object: its class and [str(e)]. *)
Record exn : Set := mk_exn { exc_type : exc_class; exc_str : string }.

#[global] Instance exn_eq_dec : EqDecision exn.
Proof. solve_decision. Defined.

(** [isinstance(e, Exception)] *)
Definition isinstance_Exception (e : exn) : bool :=
  match exc_type e with
  | KeyboardInterrupt | SystemExit => false
  | _ => true
  end.

(** [isinstance(e, FileNotFoundError)] *)
Definition isinstance_FileNotFoundError (e : exn) : bool :=
  bool_decide (exc_type e = FileNotFoundError).

(** [isinstance(e, KeyboardInterrupt)] *)
Definition isinstance_KeyboardInterrupt (e : exn) : bool :=
  bool_decide (exc_type e = KeyboardInterrupt).

(** The outcome of evaluating a Python expression or statement. *)
Inductive result (A : Type) : Type :=
| Ok (a : A)
| Raise (e : exn).
Arguments Ok {A} a.
Arguments Raise {A} e.

#[global] Instance result_eq_dec {A} `{EqDecision A} : EqDecision (result A).
Proof. solve_decision. Defined.

#[local] Set Warnings "-register-all".

(** What [json.load] can produce. A [dict] keeps its items in order, keys
    unique. *)
Inductive pyobj : Type :=
| PyNone
| PyBool (b : bool)
| PyInt (n : Z)
| PyFloat (x : float)
| PyStr (s : string)
| PyList (l : list pyobj)
| PyDict (items : list (string * pyobj)).

(** [bool(v)] *)
Definition truthy (v : pyobj) : bool :=
  match v with
  | PyNone => false
  | PyBool b => b
  | PyInt n => negb (n =? 0)%Z
  | PyFloat x => negb (PrimFloat.eqb x 0%float)
  | PyStr s => negb (bool_decide (s = ""))
  | PyList l => negb (bool_decide (length l = 0%nat))
  | PyDict d => negb (bool_decide (length d = 0%nat))
  end.

(** [type(v).__name__] *)
Definition type_name (v : pyobj) : string :=
  match v with
  | PyNone => "NoneType"
  | PyBool _ => "bool"
  | PyInt _ => "int"
  | PyFloat _ => "float"
  | PyStr _ => "str"
  | PyList _ => "list"
  | PyDict _ => "dict"
  end.

Fixpoint dict_lookup (key : string) (d : list (string * pyobj)) : option pyobj :=
  match d with
  | [] => None
  | (k, v) :: d' => if bool_decide (k = key) then Some v else dict_lookup key d'
  end.

(** [v.get(key, default)]: only a [dict] has the method. *)
Definition py_get (v : pyobj) (key : string) (default : pyobj) : result pyobj :=
  match v with
  | PyDict d => Ok (from_option id default (dict_lookup key d))
  | _ => Raise (mk_exn AttributeError
                  ("'" +:+ type_name v +:+ "' object has no attribute 'get'"))
  end.

(** ** Strings *)

(** [str.lower()] on ASCII letters; other bytes are left alone. *)
Definition lower_ascii (c : ascii) : ascii :=
  let n := nat_of_ascii c in
  if ((65 <=? n)%nat && (n <=? 90)%nat)%bool then ascii_of_nat (n + 32) else c.

Fixpoint lower (s : string) : string :=
  match s with
  | EmptyString => EmptyString
  | String c s' => String (lower_ascii c) (lower s')
  end.

(** [c.isspace()] for ASCII. *)
Definition isspace (c : ascii) : bool :=
  let n := nat_of_ascii c in
  (((9 <=? n)%nat && (n <=? 13)%nat) || ((28 <=? n)%nat && (n <=? 32)%nat))%bool.

(** [bool(s.strip())]: some character of [s] is not white space. *)
Fixpoint strip_nonempty (s : string) : bool :=
  match s with
  | EmptyString => false
  | String c s' => if isspace c then strip_nonempty s' else true
  end.

(** [" ".join(l)] *)
Fixpoint join_space (l : list string) : string :=
  match l with
  | [] => ""
  | [x] => x
  | x :: l' => x +:+ " " +:+ join_space l'
  end.

(** [x in l] for a list of strings. *)
Definition py_in (x : string) (l : list string) : bool :=
  bool_decide (x ∈ l).

(** ** Dates *)

(** [datetime.datetime] *)
Record datetime : Set := mk_datetime {
  year : N; month : N; day : N;
  hour : N; minute : N; second : N; microsecond : N
}.

Fixpoint zeros (n : nat) : string :=
  match n with
  | O => ""
  | S n' => String "0" (zeros n')
  end.

(** ["%0<width>d" % n] *)
Definition fmt_d (width : nat) (n : N) : string :=
  zeros (width - String.length (pretty n)) +:+ pretty n.

(** [datetime.isoformat()]: [YYYY-MM-DDTHH:MM:SS], followed by
    [.ffffff] when the microsecond is not 0. *)
Definition isoformat (t : datetime) : string :=
  fmt_d 4 (year t) +:+ "-" +:+ fmt_d 2 (month t) +:+ "-" +:+ fmt_d 2 (day t)
  +:+ "T" +:+ fmt_d 2 (hour t) +:+ ":" +:+ fmt_d 2 (minute t)
  +:+ ":" +:+ fmt_d 2 (second t)
  +:+ (if (microsecond t =? 0)%N then "" else "." +:+ fmt_d 6 (microsecond t)).

(** ** The outside world *)

(** [subprocess.CompletedProcess]; [stdout] and [stderr] are read only
    where the call captures them. *)
Record CompletedProcess : Set := mk_completed {
  returncode : Z;
  stdout : string;
  stderr : string
}.

(** What the environment decides during one run of the driver. *)
Record env : Type := mk_env {
  (** [sys.argv] *)
  sys_argv : list string;
  (** [sys.platform] *)
  sys_platform : string;
  (** [hasattr(sys.stdout, 'isatty') and sys.stdout.isatty()] *)
  stdout_isatty : bool;
  (** [platform.system()] *)
  platform_system : string;
  (** [os.getcwd()] *)
  getcwd : string;
  (** [build-config.json]: [None] when [os.path.exists] is false, else
      the outcome of opening the file and [json.load]ing it. *)
  config_resource : option (result pyobj);
  (** [import ctypes; ctypes.windll.shell32.IsUserAnAdmin()] *)
  IsUserAnAdmin : result Z;
  (** [subprocess.run(argv, check=False, ...)], by command line *)
  subprocess_run_outcome : list string → result CompletedProcess;
  (** [datetime.datetime.now()] *)
  datetime_now : datetime
}.

(** The file system as the driver sees and changes it: directories, and
    regular files with their contents.  It is permissive: it has no
    permissions and no quotas, and a path never names a directory and a
    regular file at once.  What the subprocesses do to the disk is
    outside the model. *)
Record filesystem : Type := mk_fs {
  dirs : gset string;
  files : gmap string string
}.

(** The effects a statement performs.  [PrintFmt s v] is
    [print(f"{s}{v}")] for a value [v] decoded from the configuration,
    whose [str()] is left symbolic. *)
Inductive event : Type :=
| Print (s : string)
| PrintFmt (s : string) (v : pyobj)
| Run (argv : list string)
| Makedirs (path : string)
| Write (path content : string).

(** One execution of a statement. *)
Record run (A : Type) : Type := Done {
  value : result A;
  state : filesystem;
  trace : list event
}.
Arguments Done {A} value state trace.
Arguments value {A} r.
Arguments state {A} r.
Arguments trace {A} r.

(** The command lines of the subprocesses started, in order. *)
Fixpoint commands (t : list event) : list (list string) :=
  match t with
  | [] => []
  | Run argv :: t' => argv :: commands t'
  | _ :: t' => commands t'
  end.

(** The files written, in order. *)
Fixpoint written (t : list event) : list (string * string) :=
  match t with
  | [] => []
  | Write path content :: t' => (path, content) :: written t'
  | _ :: t' => written t'
  end.

(** ** The monad of Python statements *)

Definition M (A : Type) : Type := filesystem → run A.

#[global] Instance M_ret : MRet M := λ A a s, Done (Ok a) s [].

#[global] Instance M_bind : MBind M := λ A B k m s,
  match m s with
  | Done (Ok a) s' t =>
      match k a s' with
      | Done v s'' t' => Done v s'' (t ++ t')
      end
  | Done (Raise e) s' t => Done (Raise e) s' t
  end.

Definition raise {A} (e : exn) : M A := λ s, Done (Raise e) s [].

(** [lift r]: an outcome decided by the environment, as a statement. *)
Definition lift {A} (r : result A) : M A := λ s, Done r s [].

(** [try: body  except ...: ...]. [handlers e] is the first [except]
    clause that matches [e], if any. *)
Definition try_except {A} (body : M A) (handlers : exn → option (M A)) : M A :=
  λ s, match body s with
       | Done (Ok a) s' t => Done (Ok a) s' t
       | Done (Raise e) s' t =>
           match handlers e with
           | Some h =>
               match h s' with
               | Done v s'' t' => Done v s'' (t ++ t')
               end
           | None => Done (Raise e) s' t
           end
       end.

(** ** Primitive effects *)

Definition print (s : string) : M unit :=
  λ fs, Done (Ok tt) fs [Print s].

Definition print_fmt (s : string) (v : pyobj) : M unit :=
  λ fs, Done (Ok tt) fs [PrintFmt s v].

(** [subprocess.run(argv, check=False, ...)] *)
Definition subprocess_run (E : env) (argv : list string) : M CompletedProcess :=
  λ fs, Done (subprocess_run_outcome E argv) fs [Run argv].

(** [os.makedirs(path, exist_ok=...)] *)
Definition os_makedirs (path : string) (exist_ok : bool) : M unit :=
  λ fs, if bool_decide (path ∈ dirs fs) then
          if exist_ok then Done (Ok tt) fs [Makedirs path]
          else Done (Raise (mk_exn FileExistsError
                              ("[Errno 17] File exists: '" +:+ path +:+ "'")))
                    fs [Makedirs path]
        else Done (Ok tt) (mk_fs ({[path]} ∪ dirs fs) (files fs)) [Makedirs path].

(** [with open(path, 'w') as f: f.write(content)] *)
Definition write_file (path content : string) : M unit :=
  λ fs, Done (Ok tt) (mk_fs (dirs fs) (<[path := content]> (files fs)))
             [Write path content].

(** [os.sep] *)
Definition os_sep (E : env) : string :=
  if bool_decide (sys_platform E = "win32") then "\" else "/".

(** [os.path.join(a, b)] for a relative [b] *)
Definition os_path_join (E : env) (a b : string) : string := a +:+ os_sep E +:+ b.

(** [os.path.abspath(p)] for a plain relative name [p] *)
Definition os_path_abspath (E : env) (p : string) : string :=
  os_path_join E (getcwd E) p.

(** ** The driver *)

(** [class Colors]: escape sequences when the platform is not win32 and
    standard output is a terminal, empty strings otherwise. *)
Module Colors.
Definition enabled (E : env) : bool :=
    negb (bool_decide (sys_platform E = "win32")) && stdout_isatty E.
Definition ESC : string := String "027"%char "".
Definition RED (E : env) : string := if enabled E then ESC +:+ "[0;31m" else "".
Definition GREEN (E : env) : string := if enabled E then ESC +:+ "[0;32m" else "".
Definition YELLOW (E : env) : string := if enabled E then ESC +:+ "[1;33m" else "".
Definition BLUE (E : env) : string := if enabled E then ESC +:+ "[0;34m" else "".
Definition BOLD (E : env) : string := if enabled E then ESC +:+ "[1m" else "".
Definition NC (E : env) : string := if enabled E then ESC +:+ "[0m" else "".
End Colors.

Section Driver.

Variable E : env.

Definition log_info (message : string) : M unit :=
  print (Colors.BLUE E +:+ "[INFO]" +:+ Colors.NC E +:+ " " +:+ message).

(** [log_info(f"{message}{v}")] for a decoded value [v] *)
Definition log_info_fmt (message : string) (v : pyobj) : M unit :=
  print_fmt (Colors.BLUE E +:+ "[INFO]" +:+ Colors.NC E +:+ " " +:+ message) v.

Definition log_success (message : string) : M unit :=
  print (Colors.GREEN E +:+ "[SUCCESS]" +:+ Colors.NC E +:+ " " +:+ message).

Definition log_warning (message : string) : M unit :=
  print (Colors.YELLOW E +:+ "[WARNING]" +:+ Colors.NC E +:+ " " +:+ message).

Definition log_error (message : string) : M unit :=
  print (Colors.RED E +:+ "[ERROR]" +:+ Colors.NC E +:+ " " +:+ message).

Definition log_step (step : Z) (message : string) : M unit :=
  print (Colors.BOLD E +:+ "[STEP " +:+ pretty step +:+ "]" +:+ Colors.NC E
         +:+ " " +:+ message).

(** [if c: body] *)
Definition when (c : bool) (body : M unit) : M unit :=
  if c then body else mret tt.

Definition load_config : M pyobj :=
  match config_resource E with
  | Some loaded => lift loaded
  | None => mret (PyDict [])
  end.

Definition detect_os : M string :=
  let system := lower (platform_system E) in
  if bool_decide (system = "linux") then mret "linux"
  else if bool_decide (system = "windows") then mret "windows"
  else if bool_decide (system = "darwin") then mret "macos"
  else raise (mk_exn Exception ("Unsupported operating system: " +:+ system)).

(** The [try] statement of [check_privileges] either returns from the
    function ([Some b]) or falls through to its end ([None]). *)
Definition check_privileges (host_os : string) : M bool :=
  if bool_decide (host_os = "windows") then
    returned ← try_except
      (is_admin ← lift (IsUserAnAdmin E);
       if (is_admin =? 0)%Z then
         log_error "Windows builds require Administrator privileges";;
         log_info "Please run 'python build.py' from an Administrator PowerShell/Command Prompt";;
         mret (Some false)
       else mret None)
      (λ e, if isinstance_Exception e then
              Some (log_warning "Could not determine if running as Administrator";;
                    mret None)
            else None);
    match returned with
    | Some b => mret b
    | None => mret true
    end
  else mret true.

Definition script_map : gmap string (string * list string) :=
  {[ "linux" := ("./scripts/bootstrap/install-docker.sh", ["/bin/bash"]);
     "windows" := (".\scripts\bootstrap\install-docker.ps1",
                   ["powershell.exe"; "-ExecutionPolicy"; "Bypass"; "-File"]);
     "macos" := ("./scripts/bootstrap/install-docker-macos.sh", ["/bin/bash"]) ]}.

Definition run_bootstrap_script (host_os : string) : M bool :=
  log_step 1 ("Ensuring Docker is installed on " +:+ host_os);;
  match script_map !! host_os with
  | None => raise (mk_exn Exception ("Unsupported OS for bootstrap: " +:+ host_os))
  | Some (script_path, cmd_prefix) =>
      let cmd := (cmd_prefix ++ [script_path])%list in
      log_info ("Running bootstrap script: " +:+ script_path);;
      try_except
        (result ← subprocess_run E cmd;
         when (negb (bool_decide (stdout result = ""))) (print (stdout result));;
         when (negb (bool_decide (stderr result = "")) && strip_nonempty (stderr result))
              (print (stderr result));;
         if (returncode result =? 0)%Z then
           log_success "Docker installation verified successfully";;
           mret true
         else if (returncode result =? 3010)%Z then
           log_warning "System reboot required to complete Docker installation";;
           log_info "Please reboot and run 'python build.py' again";;
           mret false
         else if (returncode result =? 2)%Z then
           log_warning "Manual Docker Desktop setup required";;
           log_info "Please complete Docker Desktop setup and run 'python build.py' again";;
           mret false
         else
           log_error ("Bootstrap script failed with exit code "
                      +:+ pretty (returncode result));;
           mret false)
        (λ e, if isinstance_FileNotFoundError e then
                Some (log_error ("Bootstrap script not found: " +:+ script_path);;
                      mret false)
              else if isinstance_Exception e then
                Some (log_error ("Failed to run bootstrap script: " +:+ exc_str e);;
                      mret false)
              else None)
  end.

Definition dockerfile_map : gmap string string :=
  {[ "linux" := "Dockerfile.linux";
     "windows" := "Dockerfile.windows";
     "macos" := "Dockerfile.macos" ]}.

(** [f"cef-builder-{host_os}"] *)
Definition image_tag (host_os : string) : string := "cef-builder-" +:+ host_os.

Definition build_cmd (host_os dockerfile : string) : list string :=
  ["docker"; "build"; "-t"; image_tag host_os; "-f"; dockerfile; "."].

Definition build_cef_container (host_os : string) : M bool :=
  log_step 2 ("Building CEF container for " +:+ host_os);;
  match dockerfile_map !! host_os with
  | None => raise (mk_exn KeyError ("'" +:+ host_os +:+ "'"))
  | Some dockerfile =>
      log_info ("Building Docker image: " +:+ image_tag host_os);;
      log_info ("Using Dockerfile: " +:+ dockerfile);;
      try_except
        (log_info ("Running: " +:+ join_space (build_cmd host_os dockerfile));;
         result ← subprocess_run E (build_cmd host_os dockerfile);
         if (returncode result =? 0)%Z then
           log_success ("Successfully built " +:+ image_tag host_os);;
           mret true
         else
           log_error ("Docker build failed with exit code "
                      +:+ pretty (returncode result));;
           mret false)
        (λ e, if isinstance_FileNotFoundError e then
                Some (log_error "Docker command not found. Please ensure Docker is installed and in PATH";;
                      mret false)
              else if isinstance_Exception e then
                Some (log_error ("Failed to build container: " +:+ exc_str e);;
                      mret false)
              else None)
  end.

Definition builds_dir : string := os_path_abspath E "builds".

Definition volume_mount (host_os : string) : string :=
  if bool_decide (host_os = "windows") then builds_dir +:+ ":C:\workspace\builds"
  else builds_dir +:+ ":/workspace/builds".

Definition run_cmd (host_os : string) : list string :=
  ["docker"; "run"; "--rm"; "-v"; volume_mount host_os; image_tag host_os].

Definition marker_file : string := os_path_join E builds_dir "cef_build_complete.marker".

Definition LF : string := String "010"%char "".

Definition marker_text : string :=
  "CEF build completed successfully at " +:+ isoformat (datetime_now E) +:+ LF.

Definition run_cef_container (host_os : string) : M bool :=
  log_step 3 ("Running CEF build container for " +:+ host_os);;
  os_makedirs builds_dir true;;
  try_except
    (log_info ("Running: " +:+ join_space (run_cmd host_os));;
     log_info ("Output directory: " +:+ builds_dir);;
     log_warning "This will take a significant amount of time (1-3 hours depending on hardware)";;
     result ← subprocess_run E (run_cmd host_os);
     if (returncode result =? 0)%Z then
       log_success "CEF build completed successfully";;
       log_info ("Build artifacts available in: " +:+ builds_dir);;
       write_file marker_file marker_text;;
       mret true
     else
       log_error ("CEF build failed with exit code " +:+ pretty (returncode result));;
       mret false)
    (λ e, if isinstance_FileNotFoundError e then
            Some (log_error "Docker command not found. Please ensure Docker is installed and in PATH";;
                  mret false)
          else if isinstance_Exception e then
            Some (log_error ("Failed to run container: " +:+ exc_str e);;
                  mret false)
          else None).

Definition help_text : string :=
  LF +:+
  Colors.BOLD E +:+ "BuildingCEF - Cross-platform CEF build system" +:+ Colors.NC E +:+ LF +:+
  LF +:+
  Colors.BLUE E +:+ "Usage:" +:+ Colors.NC E +:+ LF +:+
  "  python build.py         Build CEF for current platform" +:+ LF +:+
  "  python build.py --help  Show this help" +:+ LF +:+
  LF +:+
  Colors.BLUE E +:+ "Requirements:" +:+ Colors.NC E +:+ LF +:+
  "  - Windows: Run from Administrator PowerShell/Command Prompt" +:+ LF +:+
  "  - Linux/macOS: Regular user privileges (will prompt for sudo if needed)" +:+ LF +:+
  "  " +:+ LF +:+
  Colors.BLUE E +:+ "Build Process:" +:+ Colors.NC E +:+ LF +:+
  "  1. Detect your operating system (Linux/Windows/macOS)" +:+ LF +:+
  "  2. Install Docker if not already present" +:+ LF +:+
  "  3. Build the appropriate CEF container" +:+ LF +:+
  "  4. Run the CEF build process (1-3 hours)" +:+ LF +:+
  "  5. Output artifacts to builds/ directory" +:+ LF +:+
  LF +:+
  Colors.BLUE E +:+ "Examples:" +:+ Colors.NC E +:+ LF +:+
  "  python build.py         # Auto-detect OS and build CEF" +:+ LF +:+
  "  python build.py --help  # Show this help" +:+ LF +:+
  LF +:+
  Colors.YELLOW E +:+ "Note:" +:+ Colors.NC E +:+
  " This is the pure Python fallback when SCons/CMake are unavailable." +:+ LF +:+
  "Prefer using 'scons' or 'cmake -B build && cmake --build build' if available." +:+ LF.

Definition print_help : M unit := print help_text.

(** The body of the [try] statement of [main]. *)
Definition main_steps : M Z :=
  host_os ← detect_os;
  log_info ("Detected operating system: " +:+ host_os);;
  ok ← check_privileges host_os;
  if negb ok then mret 1
  else
    ok ← run_bootstrap_script host_os;
    if negb ok then
      log_error "Docker bootstrap failed";;
      mret 1
    else
      ok ← build_cef_container host_os;
      if negb ok then
        log_error "Container build failed";;
        mret 1
      else
        ok ← run_cef_container host_os;
        if negb ok then
          log_error "CEF build failed";;
          mret 1
        else
          log_success "CEF build process completed successfully!";;
          log_info "Your CEF build artifacts are ready in the 'builds/' directory";;
          mret 0.

(** The [except] clauses of the [try] statement of [main]. *)
Definition main_handlers (e : exn) : option (M Z) :=
  if isinstance_KeyboardInterrupt e then
    Some (log_warning "Build process interrupted by user";;
          mret 130)
  else if isinstance_Exception e then
    Some (log_error ("Build process failed: " +:+ exc_str e);;
          mret 1)
  else None.

Definition main : M Z :=
  if py_in "--help" (sys_argv E) || py_in "-h" (sys_argv E) then
    print_help;;
    mret 0
  else
    log_info "BuildingCEF - Cross-platform CEF build system (Pure Python)";;
    log_info "Starting CEF build process...";;
    config ← load_config;
    (if truthy config then
       v ← lift (py_get config "cef_version" (PyStr "latest"));
       log_info_fmt "Using CEF version: " v;;
       v ← lift (py_get config "build_type" (PyStr "Release"));
       log_info_fmt "Build type: " v
     else mret tt);;
    try_except main_steps main_handlers.

End Driver.

(** ** Vocabulary of the specification *)

(** The lines the logging functions print. *)
Definition info_line (E : env) (message : string) : event :=
  Print (Colors.BLUE E +:+ "[INFO]" +:+ Colors.NC E +:+ " " +:+ message).
Definition success_line (E : env) (message : string) : event :=
  Print (Colors.GREEN E +:+ "[SUCCESS]" +:+ Colors.NC E +:+ " " +:+ message).
Definition warning_line (E : env) (message : string) : event :=
  Print (Colors.YELLOW E +:+ "[WARNING]" +:+ Colors.NC E +:+ " " +:+ message).
Definition error_line (E : env) (message : string) : event :=
  Print (Colors.RED E +:+ "[ERROR]" +:+ Colors.NC E +:+ " " +:+ message).

(** [after t r]: the run [r], preceded by the effects [t]. *)
Definition after {A} (t : list event) (r : run A) : run A :=
  Done (value r) (state r) (t ++ trace r).

(** The platform identifiers the host resolver recognizes. *)
Definition recognized_platforms : list string := ["linux"; "windows"; "darwin"].

(** The command line of the bootstrap step on a host. *)
Definition bootstrap_cmd (host_os : string) : option (list string) :=
  match script_map !! host_os with
  | Some (script_path, cmd_prefix) => Some (cmd_prefix ++ [script_path])%list
  | None => None
  end.

(** The command line of the Image Builder on a host. *)
Definition image_build_cmd (host_os : string) : option (list string) :=
  build_cmd host_os <$> dockerfile_map !! host_os.

(** What a step returns, by the outcome of its subprocess: true when it
    exits 0, false when it exits otherwise or cannot run, unless the
    exception is not an [Exception] and escapes. *)
Definition step_verdict (o : result CompletedProcess) : result bool :=
  match o with
  | Ok result => Ok (returncode result =? 0)%Z
  | Raise e => if isinstance_Exception e then Ok false else Raise e
  end.

(** [guarded E step failure next]: the run of
    [if not step(...): log_error(failure); return 1], followed by [next],
    given the run [step] of the step. *)
Definition guarded (E : env) (step : run bool) (failure : string)
    (next : filesystem → run Z) : run Z :=
  match value step with
  | Ok true => after (trace step) (next (state step))
  | Ok false => Done (Ok 1) (state step) (trace step ++ [error_line E failure])
  | Raise e => Done (Raise e) (state step) (trace step)
  end.

(** The three steps of [main], from the bootstrap on. *)
Definition pipeline (E : env) (host_os : string) : M Z := λ fs,
  guarded E (run_bootstrap_script E host_os fs) "Docker bootstrap failed" (λ fs1,
  guarded E (build_cef_container E host_os fs1) "Container build failed" (λ fs2,
  guarded E (run_cef_container E host_os fs2) "CEF build failed" (λ fs3,
  Done (Ok 0) fs3
    [success_line E "CEF build process completed successfully!";
     info_line E "Your CEF build artifacts are ready in the 'builds/' directory"]))).

(** What [main] returns when a step stops the pipeline with [v]. *)
Definition stopped (v : result bool) : result Z :=
  match v with
  | Ok _ => Ok 1
  | Raise e => Raise e
  end.

(** The command lines the pipeline starts, given those of its three
    steps: each step after the first is started only when the step
    before it returned true. *)
Definition launches (E : env) (b d x : list string) : list (list string) :=
  match step_verdict (subprocess_run_outcome E b) with
  | Ok true =>
      match step_verdict (subprocess_run_outcome E d) with
      | Ok true => [b; d; x]
      | _ => [b; d]
      end
  | _ => [b]
  end.

(** The value of the pipeline, given the command lines of its three
    steps. *)
Definition pipeline_value (E : env) (b d x : list string) : result Z :=
  match step_verdict (subprocess_run_outcome E b) with
  | Ok true =>
      match step_verdict (subprocess_run_outcome E d) with
      | Ok true =>
          match step_verdict (subprocess_run_outcome E x) with
          | Ok true => Ok 0
          | v => stopped v
          end
      | v => stopped v
      end
  | v => stopped v
  end.

(** What the [try] statement of [main] makes of the value of its body. *)
Definition handled (v : result Z) : result Z :=
  match v with
  | Ok n => Ok n
  | Raise e =>
      if isinstance_KeyboardInterrupt e then Ok 130
      else if isinstance_Exception e then Ok 1
      else Raise e
  end.

(** [main] gets as far as its [try] statement. *)
Definition reaches_pipeline (E : env) (fs : filesystem) : Prop :=
  ∃ t, commands t = [] ∧ written t = [] ∧
       main E fs = after t (try_except (main_steps E) (main_handlers E) fs).

(** ** Sample environments *)

Definition fs_empty : filesystem := mk_fs ∅ ∅.

Definition sample_time : datetime := mk_datetime 2024 3 5 14 7 9 123.

Definition exit_with (code : Z) : result CompletedProcess :=
  Ok (mk_completed code "" "").

(** A terminal session on [system], in a working directory without
    configuration file, where [proc] decides how subprocesses end. *)
Definition sample_env (system : string) (admin : result Z)
    (proc : list string → result CompletedProcess) : env :=
  let windows := bool_decide (system = "Windows") in
  mk_env ["build.py"] (if windows then "win32" else lower system) true system
    (if windows then "C:\work" else "/work") None admin proc sample_time.

(** Everything succeeds. *)
Definition env_linux : env := sample_env "Linux" (Ok 0) (λ _, exit_with 0).
Definition env_windows : env := sample_env "Windows" (Ok 1) (λ _, exit_with 0).
Definition env_darwin : env := sample_env "Darwin" (Ok 0) (λ _, exit_with 0).
Definition env_freebsd : env := sample_env "FreeBSD" (Ok 0) (λ _, exit_with 0).
Definition env_macos_literal : env := sample_env "macos" (Ok 0) (λ _, exit_with 0).

(** Windows, not elevated; and Windows where the query fails. *)
Definition env_windows_user : env := sample_env "Windows" (Ok 0) (λ _, exit_with 0).
Definition env_windows_no_api : env :=
  sample_env "Windows"
    (Raise (mk_exn AttributeError "module 'ctypes' has no attribute 'windll'"))
    (λ _, exit_with 0).

(** The bootstrap script asks for a manual setup, or for a reboot. *)
Definition env_darwin_manual_setup : env := sample_env "Darwin" (Ok 0) (λ _, exit_with 2).
Definition env_windows_reboot : env := sample_env "Windows" (Ok 1) (λ _, exit_with 3010).


(** [docker build] fails; [docker run] fails. *)
Definition env_linux_build_fails : env :=
  sample_env "Linux" (Ok 0)
    (λ argv, if bool_decide (argv !! 1%nat = Some "build") then exit_with 1 else exit_with 0).
Definition env_linux_run_fails : env :=
  sample_env "Linux" (Ok 0)
    (λ argv, if bool_decide (argv !! 1%nat = Some "run") then exit_with 1 else exit_with 0).

(** Control-C while [docker run] is waiting, and while the elevation
    query is. *)
Definition env_linux_interrupted : env :=
  sample_env "Linux" (Ok 0)
    (λ argv, if bool_decide (argv !! 1%nat = Some "run")
             then Raise (mk_exn KeyboardInterrupt "") else exit_with 0).
Definition env_windows_interrupted : env :=
  sample_env "Windows" (Raise (mk_exn KeyboardInterrupt "")) (λ _, exit_with 0).

(** A later run in the same place. *)
Definition later_time : datetime := mk_datetime 2024 3 5 17 30 0 0.

(** [build-config.json] holds [{], which is not JSON. *)
Definition env_invalid_config : env :=
  mk_env ["build.py"] "linux" true "Linux" "/work"
    (Some (Raise (mk_exn JSONDecodeError
       "Expecting property name enclosed in double quotes: line 1 column 2 (char 1)")))
    (Ok 0) (λ _, exit_with 0) sample_time.

(** ** Further vocabulary *)

(** [--help] or [-h] is among the arguments. *)
Definition help_requested (E : env) : bool :=
  py_in "--help" (sys_argv E) || py_in "-h" (sys_argv E).




(** ** Further sample environments *)

(** [build.py -v --help], beside a configuration file that is not JSON. *)
Definition env_help : env :=
  mk_env ["build.py"; "-v"; "--help"] "linux" true "Linux" "/work"
    (config_resource env_invalid_config) (Ok 0) (λ _, exit_with 0) sample_time.

(** Configuration files: an object without [build_type], a list, [null]. *)
Definition env_with_config (loaded : pyobj) : env :=
  mk_env ["build.py"] "linux" true "Linux" "/work" (Some (Ok loaded)) (Ok 0)
    (λ _, exit_with 0) sample_time.
Definition env_config_object : env :=
  env_with_config (PyDict [("cef_version", PyStr "120.1.10")]).
Definition env_config_list : env := env_with_config (PyList [PyStr "cef_version"]).
Definition env_config_null : env := env_with_config PyNone.

(** The bootstrap script succeeds but there is no [docker]. *)
Definition no_docker : exn :=
  mk_exn FileNotFoundError "[Errno 2] No such file or directory: 'docker'".
Definition env_linux_no_docker : env :=
  sample_env "Linux" (Ok 0)
    (λ argv, if bool_decide (argv !! 0%nat = Some "docker") then Raise no_docker
             else exit_with 0).

(** [docker build] cannot be run for lack of permission. *)
Definition env_linux_docker_denied : env :=
  sample_env "Linux" (Ok 0)
    (λ argv, if bool_decide (argv !! 0%nat = Some "docker")
             then Raise (mk_exn PermissionError "[Errno 13] Permission denied: 'docker'")
             else exit_with 0).


(** Something calls [sys.exit] under [docker build]. *)
Definition env_linux_system_exit : env :=
  sample_env "Linux" (Ok 0)
    (λ argv, if bool_decide (argv !! 1%nat = Some "build")
             then Raise (mk_exn SystemExit "3") else exit_with 0).

(** ** Symbolic execution *)

Ltac exec :=
  cbv [mbind M_bind mret M_ret lift raise try_except when
       print print_fmt subprocess_run write_file
       log_info log_info_fmt log_success log_warning log_error log_step
       info_line success_line warning_line error_line after] in *;
  cbn [value state trace app commands written negb andb orb] in *.

(** ** Sample runs *)

Example isoformat_sample :
  isoformat sample_time = "2024-03-05T14:07:09.000123" ∧
  isoformat later_time = "2024-03-05T17:30:00".
Proof. split; reflexivity. Qed.

(** Linux, every step exits 0: status 0, three subprocesses, the marker. *)
Example run_linux_succeeds :
  let r := main env_linux fs_empty in
  value r = Ok 0 ∧
  commands (trace r) =
    [["/bin/bash"; "./scripts/bootstrap/install-docker.sh"];
     ["docker"; "build"; "-t"; "cef-builder-linux"; "-f"; "Dockerfile.linux"; "."];
     ["docker"; "run"; "--rm"; "-v"; "/work/builds:/workspace/builds";
      "cef-builder-linux"]] ∧
  written (trace r) =
    [("/work/builds/cef_build_complete.marker",
      "CEF build completed successfully at 2024-03-05T14:07:09.000123" +:+ LF)].
Proof. cbv zeta. split_and!; vm_compute; reflexivity. Qed.

(** Windows, not elevated: status 1, and no subprocess at all. *)
Example run_windows_not_elevated :
  let r := main env_windows_user fs_empty in
  value r = Ok 1 ∧ commands (trace r) = [] ∧ written (trace r) = [].
Proof. cbv zeta. split_and!; vm_compute; reflexivity. Qed.

(** Windows, elevated: the container mounts the output directory at a
    drive-letter path. *)
Example run_windows_mount :
  run_cmd env_windows "windows" =
  ["docker"; "run"; "--rm"; "-v"; "C:\work\builds:C:\workspace\builds";
   "cef-builder-windows"].
Proof. vm_compute. reflexivity. Qed.

(** An unsupported host: status 1 through [except Exception]. *)
Example run_freebsd_unsupported :
  main env_freebsd fs_empty =
  Done (Ok 1) fs_empty
    [info_line env_freebsd "BuildingCEF - Cross-platform CEF build system (Pure Python)";
     info_line env_freebsd "Starting CEF build process...";
     error_line env_freebsd "Build process failed: Unsupported operating system: freebsd"].
Proof. reflexivity. Qed.

(** ** The host resolver *)

Lemma detect_os_run (E : env) (fs : filesystem) :
  detect_os E fs = Done (value (detect_os E fs)) fs [].
Proof. unfold detect_os. by repeat case_bool_decide. Qed.

Lemma detect_os_host (E : env) (fs : filesystem) (host : string) :
  value (detect_os E fs) = Ok host →
  host = "linux" ∨ host = "windows" ∨ host = "macos".
Proof.
  unfold detect_os. repeat case_bool_decide; intros [= <-]; auto.
Qed.

(** C4. The host resolver returns the canonical profile of each of the
    three recognized platform identifiers (the lower-cased platform
    name), raises the unsupported-host error for every other one, and
    its answer is a function of the platform name alone. *)
Theorem detect_os_resolves (E : env) (fs : filesystem) :
  let system := lower (platform_system E) in
  (system = "linux" → detect_os E fs = Done (Ok "linux") fs []) ∧
  (system = "windows" → detect_os E fs = Done (Ok "windows") fs []) ∧
  (system = "darwin" → detect_os E fs = Done (Ok "macos") fs []) ∧
  (system ∉ recognized_platforms →
   detect_os E fs =
   Done (Raise (mk_exn Exception ("Unsupported operating system: " +:+ system))) fs []) ∧
  (∀ (E' : env) (fs' : filesystem),
     platform_system E' = platform_system E →
     value (detect_os E' fs') = value (detect_os E fs)).
Proof.
  cbv zeta. unfold detect_os, recognized_platforms.
  split_and!.
  - by intros ->.
  - by intros ->.
  - by intros ->.
  - intros Hnot. repeat case_bool_decide; try done; exfalso; apply Hnot; set_solver.
  - intros E' fs' ->. by repeat case_bool_decide.
Qed.

Lemma detect_os_resolves_witness :
  detect_os env_linux fs_empty = Done (Ok "linux") fs_empty [] ∧
  detect_os env_windows fs_empty = Done (Ok "windows") fs_empty [] ∧
  detect_os env_darwin fs_empty = Done (Ok "macos") fs_empty [] ∧
  detect_os env_freebsd fs_empty =
    Done (Raise (mk_exn Exception "Unsupported operating system: freebsd")) fs_empty [] ∧
  value (detect_os env_windows_user fs_empty) = value (detect_os env_windows fs_empty).
Proof.
  split_and!.
  - apply (detect_os_resolves env_linux fs_empty). reflexivity.
  - apply (detect_os_resolves env_windows fs_empty). reflexivity.
  - apply (detect_os_resolves env_darwin fs_empty). reflexivity.
  - apply (detect_os_resolves env_freebsd fs_empty).
    apply (bool_decide_unpack _). vm_compute. exact I.
  - apply (detect_os_resolves env_windows fs_empty). reflexivity.
Defined.

(** C10. The platform identifier of the macos profile is "darwin", the
    lower-cased platform name, and no other identifier yields that
    profile; the literal "macos" is not recognized and makes the
    resolver raise the unsupported-host error. *)
Theorem detect_os_darwin_not_macos (E : env) (fs : filesystem) :
  (value (detect_os E fs) = Ok "macos" ↔ lower (platform_system E) = "darwin") ∧
  (platform_system E = "macos" →
   value (detect_os E fs) =
   Raise (mk_exn Exception "Unsupported operating system: macos")).
Proof.
  unfold detect_os. split.
  - repeat case_bool_decide; split; try done; congruence.
  - intros ->. reflexivity.
Qed.

Lemma detect_os_darwin_not_macos_witness :
  value (detect_os env_darwin fs_empty) = Ok "macos" ∧
  value (detect_os env_macos_literal fs_empty) =
    Raise (mk_exn Exception "Unsupported operating system: macos").
Proof.
  split.
  - apply (detect_os_darwin_not_macos env_darwin fs_empty). reflexivity.
  - apply (detect_os_darwin_not_macos env_macos_literal fs_empty). reflexivity.
Defined.

(** ** The privilege gate *)

Lemma check_privileges_state (E : env) (host_os : string) (fs : filesystem) :
  state (check_privileges E host_os fs) = fs ∧
  commands (trace (check_privileges E host_os fs)) = [] ∧
  written (trace (check_privileges E host_os fs)) = [].
Proof.
  unfold check_privileges. case_bool_decide; [|done].
  exec. destruct (IsUserAnAdmin E) as [n|e]; [by destruct (n =? 0)%Z|].
  by destruct (isinstance_Exception e).
Qed.

(** C5. On the windows profile the privilege gate returns false, without
    raising, when the elevation query reports not-elevated, and says how
    to re-run; on every other profile it returns true and does nothing
    else; and when the elevation query raises an error it prints a
    warning and returns true. *)
Theorem check_privileges_gate (E : env) (host_os : string) (fs : filesystem) :
  (host_os = "windows" → IsUserAnAdmin E = Ok 0 →
   check_privileges E host_os fs =
   Done (Ok false) fs
     [error_line E "Windows builds require Administrator privileges";
      info_line E "Please run 'python build.py' from an Administrator PowerShell/Command Prompt"]) ∧
  (host_os ≠ "windows" → check_privileges E host_os fs = Done (Ok true) fs []) ∧
  (∀ e : exn,
     host_os = "windows" → IsUserAnAdmin E = Raise e → isinstance_Exception e = true →
     check_privileges E host_os fs =
     Done (Ok true) fs
       [warning_line E "Could not determine if running as Administrator"]).
Proof.
  unfold check_privileges. split_and!.
  - intros -> Hq. rewrite Hq. reflexivity.
  - intros Hne. by case_bool_decide.
  - intros e -> Hq He. rewrite Hq. exec. by rewrite He.
Qed.

Lemma check_privileges_gate_witness :
  value (check_privileges env_windows_user "windows" fs_empty) = Ok false ∧
  check_privileges env_linux "linux" fs_empty = Done (Ok true) fs_empty [] ∧
  check_privileges env_windows_no_api "windows" fs_empty =
    Done (Ok true) fs_empty
      [warning_line env_windows_no_api "Could not determine if running as Administrator"].
Proof.
  split_and!.
  - rewrite (proj1 (check_privileges_gate env_windows_user "windows" fs_empty));
      reflexivity.
  - apply (check_privileges_gate env_linux "linux" fs_empty). discriminate.
  - eapply (check_privileges_gate env_windows_no_api "windows" fs_empty);
      reflexivity.
Defined.

(** ** Traces *)

Lemma commands_app (t t' : list event) :
  commands (t ++ t') = (commands t ++ commands t')%list.
Proof.
  induction t as [|ev t IH]; [done|]. destruct ev; cbn; by rewrite IH.
Qed.

Lemma written_app (t t' : list event) :
  written (t ++ t') = (written t ++ written t')%list.
Proof.
  induction t as [|ev t IH]; [done|]. destruct ev; cbn; by rewrite IH.
Qed.

(** ** The shape of the monad's operations *)

Lemma bind_run {A B} (m : M A) (k : A → M B) (fs : filesystem) :
  (m ≫= k) fs =
  match value (m fs) with
  | Ok a => after (trace (m fs)) (k a (state (m fs)))
  | Raise e => Done (Raise e) (state (m fs)) (trace (m fs))
  end.
Proof.
  unfold mbind, M_bind, after. destruct (m fs) as [[a|e] fs' t]; cbn; [|done].
  by destruct (k a fs').
Qed.

Lemma try_except_run {A} (body : M A) (handlers : exn → option (M A))
    (fs : filesystem) :
  try_except body handlers fs =
  match value (body fs) with
  | Ok _ => body fs
  | Raise e =>
      match handlers e with
      | Some h => after (trace (body fs)) (h (state (body fs)))
      | None => body fs
      end
  end.
Proof.
  unfold try_except, after. destruct (body fs) as [[a|e] fs' t]; cbn; [done|].
  destruct (handlers e) as [h|]; [|done]. by destruct (h fs').
Qed.

(** ** The bootstrap step *)

Lemma FileNotFoundError_is_Exception (e : exn) :
  isinstance_FileNotFoundError e = true → isinstance_Exception e = true.
Proof.
  unfold isinstance_FileNotFoundError, isinstance_Exception.
  intros H%bool_decide_eq_true. by rewrite H.
Qed.

Lemma run_bootstrap_script_value (E : env) (fs : filesystem)
    (host_os script_path : string) (cmd_prefix : list string) :
  script_map !! host_os = Some (script_path, cmd_prefix) →
  value (run_bootstrap_script E host_os fs) =
  step_verdict (subprocess_run_outcome E (cmd_prefix ++ [script_path])).
Proof.
  intros Hmap. unfold run_bootstrap_script, step_verdict. exec. rewrite Hmap. exec.
  destruct (subprocess_run_outcome E _) as [cp|e]; exec.
  - destruct (bool_decide (stdout cp = "")); exec;
      destruct (_ && _); exec;
      repeat (destruct (returncode cp =? _)%Z; try done).
  - destruct (isinstance_FileNotFoundError e) eqn:Hfnf.
    + by rewrite (FileNotFoundError_is_Exception e Hfnf).
    + by destruct (isinstance_Exception e).
Qed.

(** The bootstrap step starts exactly its script, and leaves the file
    system alone. *)
Lemma run_bootstrap_script_frame (E : env) (fs : filesystem)
    (host_os script_path : string) (cmd_prefix : list string) :
  script_map !! host_os = Some (script_path, cmd_prefix) →
  state (run_bootstrap_script E host_os fs) = fs ∧
  commands (trace (run_bootstrap_script E host_os fs)) = [(cmd_prefix ++ [script_path])%list] ∧
  written (trace (run_bootstrap_script E host_os fs)) = [].
Proof.
  intros Hmap. unfold run_bootstrap_script. exec. rewrite Hmap. exec.
  destruct (subprocess_run_outcome E _) as [cp|e]; exec.
  - destruct (bool_decide (stdout cp = "")); exec;
      destruct (_ && _); exec;
      repeat (destruct (returncode cp =? _)%Z; try done).
  - destruct (isinstance_FileNotFoundError e); [done|].
    by destruct (isinstance_Exception e).
Qed.

(** ** Verdicts *)

Lemma step_verdict_true (o : result CompletedProcess) :
  step_verdict o = Ok true ↔ ∃ result, o = Ok result ∧ returncode result = 0.
Proof.
  unfold step_verdict. split.
  - destruct o as [cp|e].
    + intros [= H%Z.eqb_eq]. eauto.
    + by destruct (isinstance_Exception e).
  - intros (cp & -> & ->). done.
Qed.

Lemma step_verdict_nonzero (o : result CompletedProcess) (result : CompletedProcess) :
  o = Ok result → returncode result ≠ 0 → step_verdict o = Ok false.
Proof. intros -> H%Z.eqb_neq. unfold step_verdict. by rewrite H. Qed.

(** ** The Image Builder *)

Lemma build_cef_container_value (E : env) (fs : filesystem)
    (host_os dockerfile : string) :
  dockerfile_map !! host_os = Some dockerfile →
  value (build_cef_container E host_os fs) =
  step_verdict (subprocess_run_outcome E (build_cmd host_os dockerfile)).
Proof.
  intros Hmap. unfold build_cef_container, step_verdict. exec. rewrite Hmap. exec.
  destruct (subprocess_run_outcome E _) as [cp|e]; exec.
  - by destruct (returncode cp =? 0)%Z.
  - destruct (isinstance_FileNotFoundError e) eqn:Hfnf.
    + by rewrite (FileNotFoundError_is_Exception e Hfnf).
    + by destruct (isinstance_Exception e).
Qed.

Lemma build_cef_container_frame (E : env) (fs : filesystem)
    (host_os dockerfile : string) :
  dockerfile_map !! host_os = Some dockerfile →
  state (build_cef_container E host_os fs) = fs ∧
  commands (trace (build_cef_container E host_os fs)) = [build_cmd host_os dockerfile] ∧
  written (trace (build_cef_container E host_os fs)) = [].
Proof.
  intros Hmap. unfold build_cef_container. exec. rewrite Hmap. exec.
  destruct (subprocess_run_outcome E _) as [cp|e]; exec.
  - by destruct (returncode cp =? 0)%Z.
  - destruct (isinstance_FileNotFoundError e); [done|].
    by destruct (isinstance_Exception e).
Qed.

(** ** The Pipeline Executor *)

Lemma os_makedirs_exist_ok (path : string) (fs : filesystem) :
  value (os_makedirs path true fs) = Ok tt ∧
  dirs (state (os_makedirs path true fs)) = {[path]} ∪ dirs fs ∧
  files (state (os_makedirs path true fs)) = files fs ∧
  trace (os_makedirs path true fs) = [Makedirs path].
Proof.
  unfold os_makedirs. case_bool_decide as Hin; cbn; split_and!; try done.
  symmetry. apply subseteq_union_1_L. by apply singleton_subseteq_l.
Qed.

(** Without [exist_ok], creating a directory that exists raises. *)
Lemma os_makedirs_exists_raises (path : string) (fs : filesystem) :
  path ∈ dirs fs →
  os_makedirs path false fs =
  Done (Raise (mk_exn FileExistsError ("[Errno 17] File exists: '" +:+ path +:+ "'")))
       fs [Makedirs path].
Proof. intros Hin. unfold os_makedirs. by rewrite bool_decide_eq_true_2. Qed.

Lemma run_cef_container_value (E : env) (fs : filesystem) (host_os : string) :
  value (run_cef_container E host_os fs) =
  step_verdict (subprocess_run_outcome E (run_cmd E host_os)).
Proof.
  unfold run_cef_container, step_verdict. exec.
  destruct (os_makedirs (builds_dir E) true fs) as [v fs' t] eqn:Hmk.
  pose proof (os_makedirs_exist_ok (builds_dir E) fs) as (Hv & _).
  rewrite Hmk in Hv. cbn in Hv. subst v.
  destruct (subprocess_run_outcome E _) as [cp|e]; exec.
  - by destruct (returncode cp =? 0)%Z.
  - destruct (isinstance_FileNotFoundError e) eqn:Hfnf.
    + by rewrite (FileNotFoundError_is_Exception e Hfnf).
    + by destruct (isinstance_Exception e).
Qed.

(** The executor starts exactly its container; it creates the output
    directory, and writes the marker when, and only when, the container
    exits 0. *)
Lemma run_cef_container_frame (E : env) (fs : filesystem) (host_os : string) :
  let r := run_cef_container E host_os fs in
  let done := bool_decide (value r = Ok true) in
  commands (trace r) = [run_cmd E host_os] ∧
  dirs (state r) = {[builds_dir E]} ∪ dirs fs ∧
  files (state r) =
    (if done then <[marker_file E := marker_text E]> (files fs) else files fs) ∧
  written (trace r) = (if done then [(marker_file E, marker_text E)] else []).
Proof.
  cbv zeta. unfold run_cef_container. exec.
  destruct (os_makedirs (builds_dir E) true fs) as [v fs' t] eqn:Hmk.
  pose proof (os_makedirs_exist_ok (builds_dir E) fs) as (Hv & Hd & Hf & Ht).
  rewrite Hmk in Hv, Hd, Hf, Ht. cbn in Hv, Hd, Hf, Ht. subst v t.
  destruct (subprocess_run_outcome E _) as [cp|e]; exec.
  - destruct (returncode cp =? 0)%Z; cbn; by rewrite ?Hf.
  - destruct (isinstance_FileNotFoundError e); [done|].
    by destruct (isinstance_Exception e).
Qed.

(** ** The driver *)

Lemma guarded_run (E : env) (step : M bool) (failure : string) (next : M Z)
    (fs : filesystem) :
  (ok ← step; if negb ok then log_error E failure;; mret 1 else next) fs =
  guarded E (step fs) failure next.
Proof.
  rewrite bind_run. unfold guarded.
  destruct (value (step fs)) as [[]|e]; cbn [negb]; [done| |done].
  by exec.
Qed.

Lemma guarded_ext (E : env) (step : run bool) (failure : string)
    (next next' : filesystem → run Z) :
  (∀ fs, next fs = next' fs) → guarded E step failure next = guarded E step failure next'.
Proof. intros Hext. unfold guarded. by rewrite Hext. Qed.

Lemma after_after {A} (t t' : list event) (r : run A) :
  after t (after t' r) = after (t ++ t') r.
Proof. unfold after. cbn. by rewrite app_assoc. Qed.

Lemma after_nil {A} (r : run A) : after [] r = r.
Proof. by destruct r. Qed.

Lemma main_steps_pipeline (E : env) (fs : filesystem) (host_os : string) :
  value (detect_os E fs) = Ok host_os →
  value (check_privileges E host_os fs) = Ok true →
  main_steps E fs =
  after (info_line E ("Detected operating system: " +:+ host_os)
           :: trace (check_privileges E host_os fs))
        (pipeline E host_os fs).
Proof.
  intros Hhost Hpriv. unfold main_steps.
  rewrite bind_run, detect_os_run, Hhost. cbn [value state trace].
  rewrite bind_run. cbn [log_info print value state trace].
  rewrite bind_run, Hpriv. cbn [negb].
  destruct (check_privileges_state E host_os fs) as (-> & _ & _).
  rewrite after_nil, after_after. cbn [app]. f_equal.
  rewrite guarded_run. unfold pipeline.
  apply guarded_ext; intros fs1. rewrite guarded_run.
  apply guarded_ext; intros fs2. rewrite guarded_run.
  apply guarded_ext; intros fs3. by exec.
Qed.

Lemma host_lookups (host_os : string) :
  host_os = "linux" ∨ host_os = "windows" ∨ host_os = "macos" →
  ∃ script_path cmd_prefix dockerfile,
    script_map !! host_os = Some (script_path, cmd_prefix) ∧
    dockerfile_map !! host_os = Some dockerfile.
Proof.
  intros [->|[->| ->]]; do 3 eexists; split; vm_compute; reflexivity.
Qed.

(** What can be observed of the pipeline, by the verdicts of its steps. *)
Lemma pipeline_obs (E : env) (fs : filesystem) (host_os script_path dockerfile : string)
    (cmd_prefix : list string) :
  script_map !! host_os = Some (script_path, cmd_prefix) →
  dockerfile_map !! host_os = Some dockerfile →
  let b := (cmd_prefix ++ [script_path])%list in
  let d := build_cmd host_os dockerfile in
  let x := run_cmd E host_os in
  let r := pipeline E host_os fs in
  value r = pipeline_value E b d x ∧
  commands (trace r) = launches E b d x ∧
  (launches E b d x = [b; d; x] →
   state r = state (run_cef_container E host_os fs) ∧
   written (trace r) = written (trace (run_cef_container E host_os fs))) ∧
  (launches E b d x ≠ [b; d; x] → state r = fs ∧ written (trace r) = []).
Proof.
  intros Hs Hd. cbv zeta. unfold pipeline, guarded, pipeline_value, launches.
  rewrite (run_bootstrap_script_value E fs _ _ _ Hs).
  destruct (run_bootstrap_script_frame E fs _ _ _ Hs) as (Hbs & Hbc & Hbw).
  rewrite Hbs.
  rewrite (build_cef_container_value E fs _ _ Hd).
  destruct (build_cef_container_frame E fs _ _ Hd) as (Hds & Hdc & Hdw).
  rewrite Hds.
  rewrite (run_cef_container_value E fs).
  destruct (run_cef_container_frame E fs host_os) as (Hxc & _).
  destruct (step_verdict (subprocess_run_outcome E (cmd_prefix ++ [script_path])))
    as [[]|eb]; cbn [stopped value state trace after];
    rewrite ?commands_app, ?written_app, ?Hbc, ?Hbw; try done.
  destruct (step_verdict (subprocess_run_outcome E (build_cmd host_os dockerfile)))
    as [[]|ed]; cbn [stopped value state trace after];
    rewrite ?commands_app, ?written_app, ?Hdc, ?Hdw; try done.
  destruct (step_verdict (subprocess_run_outcome E (run_cmd E host_os)))
    as [[]|ex]; cbn [stopped value state trace after];
    rewrite ?commands_app, ?written_app, ?Hxc, ?app_nil_r; done.
Qed.

Lemma main_handlers_run (E : env) (e : exn) (h : M Z) (fs : filesystem) :
  main_handlers E e = Some h →
  value (h fs) = handled (Raise e) ∧ state (h fs) = fs ∧
  commands (trace (h fs)) = [] ∧ written (trace (h fs)) = [].
Proof.
  unfold main_handlers, handled.
  destruct (isinstance_KeyboardInterrupt e); [by intros [= <-]|].
  destruct (isinstance_Exception e); [by intros [= <-]|done].
Qed.

(** [try: body  except ...] with the handlers of [main] changes nothing
    but the value. *)
Lemma try_main_obs (E : env) (body : M Z) (fs : filesystem) :
  let r := try_except body (main_handlers E) fs in
  value r = handled (value (body fs)) ∧ state r = state (body fs) ∧
  commands (trace r) = commands (trace (body fs)) ∧
  written (trace r) = written (trace (body fs)).
Proof.
  cbv zeta. rewrite try_except_run.
  destruct (value (body fs)) as [n|e] eqn:Hv; [by rewrite Hv|].
  destruct (main_handlers E e) as [h|] eqn:Hh.
  - destruct (main_handlers_run E e h (state (body fs)) Hh) as (Hhv & Hhs & Hc & Hw).
    unfold after. cbn [value state trace].
    by rewrite commands_app, written_app, Hhv, Hhs, Hc, Hw, !app_nil_r.
  - rewrite Hv. split_and!; try done. unfold handled. unfold main_handlers in Hh.
    destruct (isinstance_KeyboardInterrupt e); [done|].
    by destruct (isinstance_Exception e).
Qed.

(** The [try] body of [main] either stops before the bootstrap, having
    started nothing and written nothing, or runs the pipeline for the
    detected host after the privilege gate let it pass. *)
Lemma main_steps_cases (E : env) (fs : filesystem) :
  (state (main_steps E fs) = fs ∧ commands (trace (main_steps E fs)) = [] ∧
   written (trace (main_steps E fs)) = [] ∧
   (value (main_steps E fs) = Ok 1 ∨ ∃ e, value (main_steps E fs) = Raise e)) ∨
  (∃ host_os t,
     value (detect_os E fs) = Ok host_os ∧
     value (check_privileges E host_os fs) = Ok true ∧
     commands t = [] ∧ written t = [] ∧
     main_steps E fs = after t (pipeline E host_os fs)).
Proof.
  destruct (value (detect_os E fs)) as [host_os|e] eqn:Hhost.
  - destruct (check_privileges_state E host_os fs) as (Hps & Hpc & Hpw).
    destruct (value (check_privileges E host_os fs)) as [[]|e] eqn:Hpriv.
    + right.
      exists host_os, (info_line E ("Detected operating system: " +:+ host_os)
                         :: trace (check_privileges E host_os fs)).
      split_and!; [done|done|exact Hpc|exact Hpw|by apply main_steps_pipeline].
    + left. unfold main_steps.
      rewrite bind_run, detect_os_run, Hhost. cbn [value state trace].
      rewrite bind_run. cbn [log_info print value state trace].
      rewrite bind_run, Hpriv. cbn [negb]. rewrite Hps.
      cbn. rewrite app_nil_r, Hpc, Hpw. split_and!; eauto.
    + left. unfold main_steps.
      rewrite bind_run, detect_os_run, Hhost. cbn [value state trace].
      rewrite bind_run. cbn [log_info print value state trace].
      rewrite bind_run, Hpriv. rewrite Hps.
      cbn. rewrite Hpc, Hpw. split_and!; eauto.
  - left. unfold main_steps. rewrite bind_run, detect_os_run, Hhost. cbn.
    split_and!; eauto.
Qed.

(** [main] either stops before its [try] statement, having started
    nothing and written nothing, or gets to it. *)
Lemma main_cases (E : env) (fs : filesystem) :
  (∃ v t, main E fs = Done v fs t ∧ commands t = [] ∧ written t = [] ∧
          (v = Ok 0 ∨ ∃ e, v = Raise e)) ∨
  reaches_pipeline E fs.
Proof.
  unfold reaches_pipeline, main.
  set (T := try_except (main_steps E) (main_handlers E)). clearbody T.
  destruct (py_in "--help" (sys_argv E) || py_in "-h" (sys_argv E)).
  { left. do 2 eexists. split_and!; [done..|by left]. }
  unfold load_config.
  destruct (config_resource E) as [[config|e]|]; exec.
  - destruct (truthy config).
    + destruct config; cbn [py_get];
        try (left; do 2 eexists; split_and!; [done..|right; by eexists]).
      right. destruct (T fs) as [v fs' t'].
      eexists [_; _; _; _]. split_and!; cycle 2; [reflexivity|reflexivity..].
    + right. destruct (T fs) as [v fs' t'].
      eexists [_; _]. split_and!; cycle 2; [reflexivity|reflexivity..].
  - left. do 2 eexists. split_and!; [done..|right; by eexists].
  - change (truthy (PyDict [])) with false. exec.
    right. destruct (T fs) as [v fs' t'].
    eexists [_; _]. split_and!; cycle 2; [reflexivity|reflexivity..].
Qed.

(** The shape of every run of the driver: either nothing was started
    and nothing written, or the pipeline ran for the detected host after
    the privilege gate let it pass, and the driver's exit status is what
    the handlers of [main] make of the pipeline's value. *)
Lemma main_shape (E : env) (fs : filesystem) :
  let r := main E fs in
  (state r = fs ∧ commands (trace r) = [] ∧ written (trace r) = []) ∨
  (∃ host_os,
     value (detect_os E fs) = Ok host_os ∧
     value (check_privileges E host_os fs) = Ok true ∧
     value r = handled (value (pipeline E host_os fs)) ∧
     state r = state (pipeline E host_os fs) ∧
     commands (trace r) = commands (trace (pipeline E host_os fs)) ∧
     written (trace r) = written (trace (pipeline E host_os fs))).
Proof.
  cbv zeta.
  destruct (main_cases E fs) as [(v & t & -> & Hc & Hw & _)|(t & Hc & Hw & ->)];
    [by left|].
  unfold after. cbn [value state trace].
  rewrite commands_app, written_app, Hc, Hw. cbn [app].
  destruct (try_main_obs E (main_steps E) fs) as (Hv & Hs & Hcs & Hws).
  rewrite Hv, Hs, Hcs, Hws.
  destruct (main_steps_cases E fs)
    as [(Hs' & Hc' & Hw' & _)|(host_os & t' & Hhost & Hpriv & Hc' & Hw' & ->)].
  - left. by rewrite Hs', Hc', Hw'.
  - right. exists host_os. unfold after. cbn [value state trace].
    by rewrite commands_app, written_app, Hc', Hw'.
Qed.

(** A run of the driver that starts a subprocess at all ran the pipeline
    for the detected host after the privilege gate let it pass. *)
Lemma main_launched (E : env) (fs : filesystem) :
  commands (trace (main E fs)) ≠ [] →
  ∃ host_os script_path cmd_prefix dockerfile,
    value (detect_os E fs) = Ok host_os ∧
    value (check_privileges E host_os fs) = Ok true ∧
    script_map !! host_os = Some (script_path, cmd_prefix) ∧
    dockerfile_map !! host_os = Some dockerfile ∧
    let b := (cmd_prefix ++ [script_path])%list in
    let d := build_cmd host_os dockerfile in
    let x := run_cmd E host_os in
    value (main E fs) = handled (pipeline_value E b d x) ∧
    commands (trace (main E fs)) = launches E b d x ∧
    (launches E b d x = [b; d; x] →
     state (main E fs) = state (run_cef_container E host_os fs) ∧
     written (trace (main E fs)) = written (trace (run_cef_container E host_os fs))) ∧
    (launches E b d x ≠ [b; d; x] →
     state (main E fs) = fs ∧ written (trace (main E fs)) = []).
Proof.
  intros Hcs.
  destruct (main_shape E fs)
    as [(_ & Hc & _)|(host_os & Hhost & Hpriv & Hv & Hs & Hc & Hw)]; [done|].
  destruct (host_lookups host_os (detect_os_host E fs host_os Hhost))
    as (script_path & cmd_prefix & dockerfile & Hsm & Hdm).
  exists host_os, script_path, cmd_prefix, dockerfile.
  destruct (pipeline_obs E fs _ _ _ _ Hsm Hdm) as (Hpv & Hpc & Hfull & Hpart).
  cbv zeta. rewrite Hv, Hs, Hc, Hw, Hpv, Hpc. by split_and!.
Qed.

Lemma reaches_pipeline_value (E : env) (fs : filesystem) :
  reaches_pipeline E fs → value (main E fs) = handled (value (main_steps E fs)).
Proof.
  intros (t & _ & _ & ->). cbn [after value].
  by destruct (try_main_obs E (main_steps E) fs) as (-> & _).
Qed.

(** The only exit statuses [main] returns are 0, 1 and 130. *)
Lemma main_exit_statuses (E : env) (fs : filesystem) (status : Z) :
  value (main E fs) = Ok status → status = 0 ∨ status = 1 ∨ status = 130.
Proof.
  destruct (main_cases E fs) as [(v & t & -> & _ & _ & Hv)|Hreach].
  - cbn. intros ->. destruct Hv as [[= ->]|(e & [=])]. auto.
  - rewrite (reaches_pipeline_value E fs Hreach).
    assert (∀ v : result Z,
              (v = Ok 0 ∨ v = Ok 1 ∨ ∃ e, v = Raise e) →
              handled v = Ok status → status = 0 ∨ status = 1 ∨ status = 130) as Hh.
    { intros v [->|[->|(e & ->)]]; cbn; try (intros [= <-]; by auto).
      destruct (isinstance_KeyboardInterrupt e); [intros [= <-]; by auto|].
      destruct (isinstance_Exception e); [intros [= <-]; by auto|done]. }
    apply Hh.
    destruct (main_steps_cases E fs)
      as [(_ & _ & _ & [->|(e & ->)])|(host_os & t & Hhost & _ & _ & _ & ->)];
      [by auto|by eauto|].
    destruct (host_lookups host_os (detect_os_host E fs host_os Hhost))
      as (script_path & cmd_prefix & dockerfile & Hsm & Hdm).
    destruct (pipeline_obs E fs _ _ _ _ Hsm Hdm) as (Hpv & _).
    cbn [after value]. rewrite Hpv. unfold pipeline_value, stopped.
    repeat (destruct (step_verdict _) as [[]|]; eauto).
Qed.

(** ** The completion marker *)



(** ** Sequencing *)

(** C9. The command lines a run of the driver starts are those of the
    bootstrap step, the Image Builder and the Pipeline Executor of the
    detected host, in this order; none is started before the privilege
    gate returned true, the Image Builder only after the bootstrap step
    returned true, the Pipeline Executor only after the Image Builder
    returned true.  Every command after the first is started right after
    one that exited 0; and when one of them (the Image Builder's and the
    Pipeline Executor's among them) exits non-zero, it is the last one
    started and the driver's exit status is 1. *)
Theorem main_strictly_sequential (E : env) (fs : filesystem) :
  let r := main E fs in
  let cs := commands (trace r) in
  (cs = [] ∨
   ∃ host_os b d,
     value (detect_os E fs) = Ok host_os ∧
     value (check_privileges E host_os fs) = Ok true ∧
     bootstrap_cmd host_os = Some b ∧
     image_build_cmd host_os = Some d ∧
     (cs = [b] ∨
      (cs = [b; d] ∧ value (run_bootstrap_script E host_os fs) = Ok true) ∨
      (cs = [b; d; run_cmd E host_os] ∧
       value (run_bootstrap_script E host_os fs) = Ok true ∧
       value (build_cef_container E host_os fs) = Ok true))) ∧
  (∀ (i : nat) (c : list string),
     cs !! S i = Some c →
     ∃ c' result,
       cs !! i = Some c' ∧ subprocess_run_outcome E c' = Ok result ∧
       returncode result = 0) ∧
  (∀ (i : nat) (c : list string) (result : CompletedProcess),
     cs !! i = Some c → subprocess_run_outcome E c = Ok result →
     returncode result ≠ 0 →
     value r = Ok 1 ∧ length cs = S i).
Proof.
  cbv zeta.
  destruct (decide (commands (trace (main E fs)) = [])) as [Hnil|Hcs].
  { rewrite Hnil. split_and!; [by left|done..]. }
  destruct (main_launched E fs Hcs)
    as (host_os & script_path & cmd_prefix & dockerfile & Hhost & Hpriv & Hsm & Hdm & H).
  cbv zeta in H. destruct H as (Hv & Hc & _).
  rewrite Hv, Hc. clear Hv Hc Hcs.
  pose proof (run_bootstrap_script_value E fs _ _ _ Hsm) as Hbv.
  pose proof (build_cef_container_value E fs _ _ Hdm) as Hdv.
  set (b := (cmd_prefix ++ [script_path])%list) in *.
  set (d := build_cmd host_os dockerfile) in *.
  set (x := run_cmd E host_os).
  unfold launches, pipeline_value.
  destruct (step_verdict (subprocess_run_outcome E b)) as [[]|eb] eqn:Hb;
    [destruct (step_verdict (subprocess_run_outcome E d)) as [[]|ed] eqn:Hd|..].
  all: split_and!.
  all: try (right; exists host_os, b, d; split_and!; try done;
            [unfold bootstrap_cmd; by rewrite Hsm
            |unfold image_build_cmd; by rewrite Hdm
            |by auto]).
  all: try (intros [|[|[|i]]] c [= <-];
            apply step_verdict_true in Hb as (cpb & Hb & Hbz);
            try apply step_verdict_true in Hd as (cpd & Hd & Hdz); by eauto).
  all: try (intros [|[|[|i]]] c Hl; discriminate Hl).
  all: intros [|[|[|i]]] c cp [= <-] Hout Hrc;
    pose proof (step_verdict_nonzero _ _ Hout Hrc) as Hf;
    try congruence; by rewrite ?Hf.
Qed.

Lemma main_strictly_sequential_witness :
  let r := main env_linux_build_fails fs_empty in
  (∃ c' result,
     commands (trace r) !! 0%nat = Some c' ∧
     subprocess_run_outcome env_linux_build_fails c' = Ok result ∧
     returncode result = 0) ∧
  value r = Ok 1 ∧ length (commands (trace r)) = 2%nat.
Proof.
  cbv zeta. split.
  - apply (proj1 (proj2 (main_strictly_sequential env_linux_build_fails fs_empty))
             0%nat (build_cmd "linux" "Dockerfile.linux")).
    vm_compute. reflexivity.
  - apply (proj2 (proj2 (main_strictly_sequential env_linux_build_fails fs_empty))
             1%nat (build_cmd "linux" "Dockerfile.linux") (mk_completed 1 "" "")).
    + vm_compute. reflexivity.
    + reflexivity.
    + discriminate.
Defined.

(** ** The bootstrap contract *)


Lemma bootstrap_cmd_lookup (host_os script_path : string) (cmd_prefix b : list string) :
  script_map !! host_os = Some (script_path, cmd_prefix) →
  bootstrap_cmd host_os = Some b → b = (cmd_prefix ++ [script_path])%list.
Proof. unfold bootstrap_cmd. intros ->. by intros [= <-]. Qed.

(** How a run of the driver goes on after its bootstrap script ended
    with an exit code. *)
Lemma main_after_bootstrap (E : env) (fs : filesystem) (host_os : string)
    (b : list string) (result : CompletedProcess) :
  value (detect_os E fs) = Ok host_os →
  bootstrap_cmd host_os = Some b →
  b ∈ commands (trace (main E fs)) →
  subprocess_run_outcome E b = Ok result →
  (returncode result = 0 →
   ∃ d rest, image_build_cmd host_os = Some d ∧
             commands (trace (main E fs)) = b :: d :: rest) ∧
  (returncode result ≠ 0 →
   commands (trace (main E fs)) = [b] ∧ value (main E fs) = Ok 1).
Proof.
  intros Hhost Hb Hin Hout.
  assert (commands (trace (main E fs)) ≠ []) as Hcs by (intros Hnil; rewrite Hnil in Hin; set_solver).
  destruct (main_launched E fs Hcs)
    as (host' & script_path & cmd_prefix & dockerfile & Hhost' & _ & Hsm & Hdm & H).
  assert (host' = host_os) as -> by congruence.
  rewrite (bootstrap_cmd_lookup _ _ _ _ Hsm Hb) in *.
  cbv zeta in H. destruct H as (Hv & Hc & _). rewrite Hv, Hc.
  unfold launches, pipeline_value. rewrite Hout. cbn [step_verdict]. split.
  - intros ->. cbn. exists (build_cmd host_os dockerfile).
    unfold image_build_cmd. rewrite Hdm.
    destruct (step_verdict (subprocess_run_outcome E (build_cmd host_os dockerfile)))
      as [[]|]; by eexists.
  - intros Hnz%Z.eqb_neq. by rewrite Hnz.
Qed.

(** C1, as the driver has it. For every run in which the bootstrap step
    ends in an ActionRequired outcome (exit code 2 or 3010), the driver
    halts the pipeline there and returns exit status 1, the status of a
    hard failure. *)
Theorem action_required_exits_1 (E : env) (fs : filesystem) (host_os : string)
    (b : list string) (result : CompletedProcess) :
  value (detect_os E fs) = Ok host_os →
  bootstrap_cmd host_os = Some b →
  b ∈ commands (trace (main E fs)) →
  subprocess_run_outcome E b = Ok result →
  returncode result = 2 ∨ returncode result = 3010 →
  value (main E fs) = Ok 1 ∧ commands (trace (main E fs)) = [b].
Proof.
  intros Hhost Hb Hin Hout Hrc.
  destruct (main_after_bootstrap E fs host_os b result Hhost Hb Hin Hout) as (_ & H).
  destruct H as (-> & ->); [|done]. by destruct Hrc as [-> | ->].
Qed.

Lemma action_required_exits_1_witness :
  value (main env_windows_reboot fs_empty) = Ok 1 ∧
  commands (trace (main env_windows_reboot fs_empty)) =
    [["powershell.exe"; "-ExecutionPolicy"; "Bypass"; "-File";
      ".\scripts\bootstrap\install-docker.ps1"]].
Proof.
  apply (action_required_exits_1 env_windows_reboot fs_empty "windows" _
           (mk_completed 3010 "" "")).
  - reflexivity.
  - vm_compute. reflexivity.
  - vm_compute. apply list_elem_of_here.
  - reflexivity.
  - right. reflexivity.
Defined.

(** C1, as stated, fails: on macOS with a bootstrap script that exits 2,
    the driver's exit status is 1, which is not distinct from the status
    of a hard failure. *)
Lemma action_required_status_not_distinct :
  let E := env_darwin_manual_setup in
  let r := main E fs_empty in
  let b := ["/bin/bash"; "./scripts/bootstrap/install-docker-macos.sh"] in
  bootstrap_cmd "macos" = Some b ∧
  commands (trace r) = [b] ∧
  subprocess_run_outcome E b = Ok (mk_completed 2 "" "") ∧
  value r = Ok 1 ∧
  ¬ (∃ status, value r = Ok status ∧ status ≠ 0 ∧ status ≠ 1).
Proof.
  cbv zeta. split_and!; try (vm_compute; reflexivity).
  intros (status & Hv & _ & Hne). vm_compute in Hv. congruence.
Qed.





(** ** Interrupts *)

Lemma KeyboardInterrupt_not_Exception (e : exn) :
  isinstance_KeyboardInterrupt e = true →
  isinstance_Exception e = false ∧ isinstance_FileNotFoundError e = false.
Proof.
  unfold isinstance_KeyboardInterrupt, isinstance_Exception, isinstance_FileNotFoundError.
  intros H%bool_decide_eq_true. by rewrite H.
Qed.

Lemma step_verdict_interrupt (o : result CompletedProcess) (e : exn) :
  isinstance_KeyboardInterrupt e = true → o = Raise e → step_verdict o = Raise e.
Proof.
  intros (Hne & _)%KeyboardInterrupt_not_Exception ->. unfold step_verdict.
  by rewrite Hne.
Qed.

Lemma check_privileges_interrupt (E : env) (fs : filesystem) (e : exn) :
  isinstance_KeyboardInterrupt e = true → IsUserAnAdmin E = Raise e →
  value (check_privileges E "windows" fs) = Raise e.
Proof.
  intros (Hne & _)%KeyboardInterrupt_not_Exception Hq. unfold check_privileges.
  rewrite Hq. exec. by rewrite Hne.
Qed.

(** What the [try] body of [main] returns when the privilege gate does
    not let the run pass. *)
Lemma main_steps_gate_value (E : env) (fs : filesystem) (host_os : string) :
  value (detect_os E fs) = Ok host_os →
  value (check_privileges E host_os fs) ≠ Ok true →
  value (main_steps E fs) = stopped (value (check_privileges E host_os fs)).
Proof.
  intros Hhost Hpriv. unfold main_steps.
  rewrite bind_run, detect_os_run, Hhost. cbn [value state trace].
  rewrite bind_run. cbn [log_info print value state trace].
  rewrite bind_run.
  destruct (value (check_privileges E host_os fs)) as [[]|e]; done.
Qed.

(** C8. An interrupt is a [KeyboardInterrupt] raised by the blocking call
    of a step.  No step catches it: the privilege gate, the bootstrap
    step, the Image Builder and the Pipeline Executor all let it through;
    and the driver, whichever step it was in and whatever raised it
    inside the [try] statement, then exits with status 130, which is
    neither 0 nor 1. *)
Theorem interrupt_exits_130 (E : env) (fs : filesystem) (e : exn) :
  isinstance_KeyboardInterrupt e = true →
  (IsUserAnAdmin E = Raise e → value (check_privileges E "windows" fs) = Raise e) ∧
  (∀ (host_os script_path : string) (cmd_prefix : list string),
     script_map !! host_os = Some (script_path, cmd_prefix) →
     subprocess_run_outcome E (cmd_prefix ++ [script_path]) = Raise e →
     value (run_bootstrap_script E host_os fs) = Raise e) ∧
  (∀ host_os dockerfile : string,
     dockerfile_map !! host_os = Some dockerfile →
     subprocess_run_outcome E (build_cmd host_os dockerfile) = Raise e →
     value (build_cef_container E host_os fs) = Raise e) ∧
  (∀ host_os : string,
     subprocess_run_outcome E (run_cmd E host_os) = Raise e →
     value (run_cef_container E host_os fs) = Raise e) ∧
  (∀ c : list string,
     c ∈ commands (trace (main E fs)) → subprocess_run_outcome E c = Raise e →
     value (main E fs) = Ok 130) ∧
  (reaches_pipeline E fs → value (detect_os E fs) = Ok "windows" →
   IsUserAnAdmin E = Raise e → value (main E fs) = Ok 130) ∧
  (reaches_pipeline E fs → value (main_steps E fs) = Raise e →
   value (main E fs) = Ok 130) ∧
  (130 ≠ 0 ∧ 130 ≠ 1).
Proof.
  intros Hki. split_and!; try done.
  - by apply check_privileges_interrupt.
  - intros host_os script_path cmd_prefix Hmap Hout.
    rewrite (run_bootstrap_script_value E fs _ _ _ Hmap).
    by apply step_verdict_interrupt.
  - intros host_os dockerfile Hmap Hout.
    rewrite (build_cef_container_value E fs _ _ Hmap).
    by apply step_verdict_interrupt.
  - intros host_os Hout. rewrite run_cef_container_value.
    by apply step_verdict_interrupt.
  - intros c Hin Hout.
    assert (commands (trace (main E fs)) ≠ []) as Hcs
      by (intros Hnil; rewrite Hnil in Hin; by apply elem_of_nil in Hin).
    destruct (main_launched E fs Hcs)
      as (host_os & script_path & cmd_prefix & dockerfile & _ & _ & _ & _ & H).
    cbv zeta in H. destruct H as (Hv & Hc & _). rewrite Hv. rewrite Hc in Hin.
    pose proof (step_verdict_interrupt _ e Hki Hout) as Hraise.
    unfold launches in Hin. unfold pipeline_value, handled.
    destruct (step_verdict (subprocess_run_outcome E (cmd_prefix ++ [script_path])))
      as [[]|eb] eqn:Hb;
      [destruct (step_verdict (subprocess_run_outcome E (build_cmd host_os dockerfile)))
         as [[]|ed] eqn:Hd|..].
    all: repeat (apply elem_of_cons in Hin as [-> |Hin]; [congruence|]).
    all: try (by apply elem_of_nil in Hin).
    all: apply elem_of_cons in Hin as [-> |Hin]; [|by apply elem_of_nil in Hin].
    all: rewrite ?Hraise in *; simplify_eq; cbn; by rewrite Hki.
  - intros Hreach Hhost Hq.
    rewrite (reaches_pipeline_value E fs Hreach).
    rewrite (main_steps_gate_value E fs "windows" Hhost);
      rewrite (check_privileges_interrupt E fs e Hki Hq); [|done].
    cbn. by rewrite Hki.
  - intros Hreach Hraise. rewrite (reaches_pipeline_value E fs Hreach), Hraise.
    cbn. by rewrite Hki.
Qed.

Lemma interrupt_exits_130_witness :
  value (run_cef_container env_linux_interrupted "linux" fs_empty) =
    Raise (mk_exn KeyboardInterrupt "") ∧
  value (main env_linux_interrupted fs_empty) = Ok 130 ∧
  value (main env_windows_interrupted fs_empty) = Ok 130.
Proof.
  destruct (interrupt_exits_130 env_linux_interrupted fs_empty
              (mk_exn KeyboardInterrupt "") eq_refl)
    as (_ & _ & _ & Hrun & Hmain & _).
  destruct (interrupt_exits_130 env_windows_interrupted fs_empty
              (mk_exn KeyboardInterrupt "") eq_refl)
    as (_ & _ & _ & _ & _ & Hgate & _ & _).
  split_and!.
  - apply Hrun. reflexivity.
  - apply (Hmain (run_cmd env_linux_interrupted "linux")).
    + vm_compute. do 2 apply list_elem_of_further. apply list_elem_of_here.
    + reflexivity.
  - apply Hgate.
    + eexists [_; _]. split_and!; cycle 2; [vm_compute; reflexivity|reflexivity..].
    + reflexivity.
    + reflexivity.
Defined.

(** ** The configuration resource *)

(** Without a configuration file, the configuration is the empty
    dictionary, nothing of it is shown and [main] goes on to its [try]
    statement. *)
Lemma main_config_absent (E : env) (fs : filesystem) :
  py_in "--help" (sys_argv E) || py_in "-h" (sys_argv E) = false →
  config_resource E = None →
  load_config E fs = Done (Ok (PyDict [])) fs [] ∧
  main E fs =
  after [info_line E "BuildingCEF - Cross-platform CEF build system (Pure Python)";
         info_line E "Starting CEF build process..."]
        (try_except (main_steps E) (main_handlers E) fs).
Proof.
  intros Hhelp Hcfg. unfold main, load_config. rewrite Hhelp, Hcfg. split; [done|].
  set (T := try_except (main_steps E) (main_handlers E)). clearbody T.
  exec. change (truthy (PyDict [])) with false. exec. by destruct (T fs).
Qed.

(** When loading the configuration file raises, the exception leaves
    [main]: the call is not inside its [try] statement. *)
Lemma main_config_raises (E : env) (fs : filesystem) (e : exn) :
  py_in "--help" (sys_argv E) || py_in "-h" (sys_argv E) = false →
  config_resource E = Some (Raise e) →
  main E fs =
  Done (Raise e) fs
    [info_line E "BuildingCEF - Cross-platform CEF build system (Pure Python)";
     info_line E "Starting CEF build process..."].
Proof.
  intros Hhelp Hcfg. unfold main, load_config. by rewrite Hhelp, Hcfg.
Qed.

(** C6, on the code. A configuration file that is absent is tolerated:
    the configuration is empty and the driver goes on to its pipeline.
    A configuration file whose content [json.load] rejects is not: the
    exception leaves [main] right after the two banner lines, before the
    host is even detected, and no step runs. *)
Theorem config_absent_tolerated_invalid_fatal (E : env) (fs : filesystem) :
  py_in "--help" (sys_argv E) || py_in "-h" (sys_argv E) = false →
  (config_resource E = None →
   value (load_config E fs) = Ok (PyDict []) ∧ reaches_pipeline E fs) ∧
  (∀ e : exn,
     config_resource E = Some (Raise e) →
     main E fs =
     Done (Raise e) fs
       [info_line E "BuildingCEF - Cross-platform CEF build system (Pure Python)";
        info_line E "Starting CEF build process..."]).
Proof.
  intros Hhelp. split.
  - intros Hcfg. destruct (main_config_absent E fs Hhelp Hcfg) as (Hload & Hmain).
    split; [by rewrite Hload|].
    eexists. split_and!; cycle 2; [exact Hmain|reflexivity..].
  - intros e Hcfg. by apply main_config_raises.
Qed.

Lemma config_absent_tolerated_invalid_fatal_witness :
  reaches_pipeline env_linux fs_empty ∧
  value (main env_invalid_config fs_empty) =
    Raise (mk_exn JSONDecodeError
             "Expecting property name enclosed in double quotes: line 1 column 2 (char 1)") ∧
  commands (trace (main env_invalid_config fs_empty)) = [].
Proof.
  split.
  - apply (proj1 (config_absent_tolerated_invalid_fatal env_linux fs_empty eq_refl)).
    reflexivity.
  - rewrite (proj2 (config_absent_tolerated_invalid_fatal env_invalid_config fs_empty
                      eq_refl) _ eq_refl).
    split; reflexivity.
Defined.

(** ** Running the driver again *)

Lemma handled_success (v : result Z) : handled v = Ok 0 → v = Ok 0.
Proof.
  unfold handled. destruct v as [n|e]; [done|].
  destruct (isinstance_KeyboardInterrupt e); [done|].
  by destruct (isinstance_Exception e).
Qed.





(** ** The privilege gate, completely *)

Lemma check_privileges_elevated (E : env) (fs : filesystem) (n : Z) :
  IsUserAnAdmin E = Ok n → n ≠ 0 →
  check_privileges E "windows" fs = Done (Ok true) fs [].
Proof.
  intros Hq Hn%Z.eqb_neq. unfold check_privileges. rewrite Hq. exec. by rewrite Hn.
Qed.

(** X1. The privilege gate blocks a run in exactly one case: the host is
    windows and the elevation query answers 0.  An elevated Windows run
    passes without a word; the gate lets an exception out only when the
    query raises one that is not an [Exception]; and in no case does it
    start a subprocess or touch the file system. *)
Theorem check_privileges_blocks_exactly (E : env) (host_os : string) (fs : filesystem) :
  let r := check_privileges E host_os fs in
  (value r = Ok false ↔ host_os = "windows" ∧ IsUserAnAdmin E = Ok 0) ∧
  (∀ n : Z, host_os = "windows" → IsUserAnAdmin E = Ok n → n ≠ 0 →
            r = Done (Ok true) fs []) ∧
  (∀ e : exn, value r = Raise e ↔
              host_os = "windows" ∧ IsUserAnAdmin E = Raise e ∧
              isinstance_Exception e = false) ∧
  state r = fs ∧ commands (trace r) = [] ∧ written (trace r) = [].
Proof.
  cbv zeta. split_and!; try apply check_privileges_state.
  - unfold check_privileges. case_bool_decide as Hw; [|by split; [|intros []]].
    destruct (IsUserAnAdmin E) as [n|e]; exec.
    + destruct (Z.eqb_spec n 0) as [->|Hn]; [done|].
      split; [done|]. intros (_ & [= ->]). done.
    + destruct (isinstance_Exception e); split; try done; by intros [].
  - intros n -> Hq Hn. by apply (check_privileges_elevated E fs n).
  - intros e. unfold check_privileges. case_bool_decide as Hw; [|by split; [|intros []]].
    destruct (IsUserAnAdmin E) as [n|e']; exec.
    + destruct (n =? 0)%Z; split; try done; by intros (_ & ? & _).
    + destruct (isinstance_Exception e') eqn:He'; split.
      * done.
      * intros (_ & [= ->] & He). congruence.
      * by intros [= ->].
      * by intros (_ & [= ->] & _).
Qed.

Lemma check_privileges_blocks_exactly_witness :
  value (check_privileges env_windows_user "windows" fs_empty) = Ok false ∧
  check_privileges env_windows "windows" fs_empty = Done (Ok true) fs_empty [] ∧
  value (check_privileges env_windows_interrupted "windows" fs_empty) =
    Raise (mk_exn KeyboardInterrupt "").
Proof.
  destruct (check_privileges_blocks_exactly env_windows_user "windows" fs_empty)
    as (Hblock & _).
  destruct (check_privileges_blocks_exactly env_windows "windows" fs_empty)
    as (_ & Hpass & _).
  destruct (check_privileges_blocks_exactly env_windows_interrupted "windows" fs_empty)
    as (_ & _ & Hraise & _).
  split_and!.
  - apply Hblock. split; reflexivity.
  - apply (Hpass 1); [reflexivity|reflexivity|discriminate].
  - apply Hraise. split_and!; reflexivity.
Defined.

(** ** Hosts and their tables *)

Lemma dom_script_map (host_os : string) :
  host_os ∈ dom script_map ↔
  host_os = "linux" ∨ host_os = "windows" ∨ host_os = "macos".
Proof.
  unfold script_map. rewrite !dom_insert, dom_singleton.
  rewrite !elem_of_union, !elem_of_singleton. tauto.
Qed.

Lemma dom_dockerfile_map (host_os : string) :
  host_os ∈ dom dockerfile_map ↔
  host_os = "linux" ∨ host_os = "windows" ∨ host_os = "macos".
Proof.
  unfold dockerfile_map. rewrite !dom_insert, dom_singleton.
  rewrite !elem_of_union, !elem_of_singleton. tauto.
Qed.

(** X2. The hosts the resolver can return are exactly the keys of the
    bootstrap script table and exactly the keys of the Dockerfile table:
    for a detected host neither lookup of the steps can fail. *)
Theorem detected_hosts_are_the_table_keys (host_os : string) :
  ((∃ E fs, value (detect_os E fs) = Ok host_os) ↔ host_os ∈ dom script_map) ∧
  (host_os ∈ dom script_map ↔ host_os ∈ dom dockerfile_map) ∧
  (host_os ∈ dom script_map ↔
   host_os = "linux" ∨ host_os = "windows" ∨ host_os = "macos").
Proof.
  pose proof (dom_script_map host_os) as Hs.
  pose proof (dom_dockerfile_map host_os) as Hd.
  split_and!; [|by rewrite Hs, Hd|done].
  rewrite Hs. split.
  - intros (E & fs & Hhost). by apply (detect_os_host E fs).
  - intros [->|[->| ->]].
    + by exists env_linux, fs_empty.
    + by exists env_windows, fs_empty.
    + by exists env_darwin, fs_empty.
Qed.

Lemma detected_hosts_are_the_table_keys_witness :
  "macos" ∈ dom dockerfile_map ∧ ∃ E fs, value (detect_os E fs) = Ok "macos".
Proof.
  destruct (detected_hosts_are_the_table_keys "macos") as (Hdet & Hboth & Hkeys).
  assert ("macos" ∈ dom script_map) as Hin by (apply Hkeys; auto).
  split; [by apply Hboth|by apply Hdet].
Defined.



(** ** The Image Builder's verdict *)

(** X4. The Image Builder returns true exactly when [docker build] exits
    0.  Its last line says what happened: the tag on success, the exit
    code in decimal on failure, that the docker command was not found
    when it was not, and the text of any other [Exception].  It starts
    [docker build] and nothing else, and never touches the file system. *)
Theorem build_cef_container_verdict (E : env) (fs : filesystem)
    (host_os dockerfile : string) :
  dockerfile_map !! host_os = Some dockerfile →
  let r := build_cef_container E host_os fs in
  state r = fs ∧ written (trace r) = [] ∧
  commands (trace r) =
    [["docker"; "build"; "-t"; "cef-builder-" +:+ host_os; "-f"; dockerfile; "."]] ∧
  match subprocess_run_outcome E (build_cmd host_os dockerfile) with
  | Ok result =>
      if (returncode result =? 0)%Z then
        value r = Ok true ∧
        last (trace r) =
          Some (success_line E ("Successfully built cef-builder-" +:+ host_os))
      else
        value r = Ok false ∧
        last (trace r) =
          Some (error_line E ("Docker build failed with exit code "
                              +:+ pretty (returncode result)))
  | Raise e =>
      if isinstance_FileNotFoundError e then
        value r = Ok false ∧
        last (trace r) =
          Some (error_line E
                  "Docker command not found. Please ensure Docker is installed and in PATH")
      else if isinstance_Exception e then
        value r = Ok false ∧
        last (trace r) = Some (error_line E ("Failed to build container: " +:+ exc_str e))
      else value r = Raise e
  end.
Proof.
  intros Hmap. cbv zeta.
  destruct (build_cef_container_frame E fs _ _ Hmap) as (-> & -> & ->).
  split_and!; try done.
  unfold build_cef_container. exec. rewrite Hmap. exec.
  destruct (subprocess_run_outcome E _) as [cp|e]; exec.
  - by destruct (returncode cp =? 0)%Z.
  - destruct (isinstance_FileNotFoundError e); [done|].
    by destruct (isinstance_Exception e).
Qed.

Lemma build_cef_container_verdict_witness :
  value (build_cef_container env_linux_no_docker "linux" fs_empty) = Ok false ∧
  last (trace (build_cef_container env_linux_no_docker "linux" fs_empty)) =
    Some (error_line env_linux_no_docker
            "Docker command not found. Please ensure Docker is installed and in PATH") ∧
  last (trace (build_cef_container env_linux_build_fails "linux" fs_empty)) =
    Some (error_line env_linux_build_fails "Docker build failed with exit code 1").
Proof.
  destruct (build_cef_container_verdict env_linux_no_docker fs_empty "linux" _ eq_refl)
    as (_ & _ & _ & Hv & Hl).
  destruct (build_cef_container_verdict env_linux_build_fails fs_empty "linux" _ eq_refl)
    as (_ & _ & _ & _ & Hl').
  split_and!; [exact Hv|exact Hl|exact Hl'].
Defined.

(** ** The Pipeline Executor's failures and paths *)






(** X7. In a run of the driver that starts three subprocesses, the third
    runs the very image the second has tagged: [docker build] is given
    [-t <tag>] and [docker run] ends in the same [<tag>]. *)
Theorem executor_runs_the_built_image (E : env) (fs : filesystem)
    (c1 c2 c3 : list string) :
  commands (trace (main E fs)) = [c1; c2; c3] →
  ∃ tag, c2 !! 2%nat = Some "-t" ∧ c2 !! 3%nat = Some tag ∧ last c3 = Some tag.
Proof.
  intros Hcs.
  assert (commands (trace (main E fs)) ≠ []) as Hne by (by rewrite Hcs).
  destruct (main_launched E fs Hne)
    as (host_os & script_path & cmd_prefix & dockerfile & _ & _ & _ & _ & H).
  cbv zeta in H. destruct H as (_ & Hc & _). rewrite Hcs in Hc.
  unfold launches in Hc.
  destruct (step_verdict (subprocess_run_outcome E (cmd_prefix ++ [script_path])))
    as [[]|]; try done.
  destruct (step_verdict (subprocess_run_outcome E (build_cmd host_os dockerfile)))
    as [[]|]; try done.
  injection Hc as _ -> ->. by exists (image_tag host_os).
Qed.

Lemma executor_runs_the_built_image_witness :
  ∃ tag,
    build_cmd "linux" "Dockerfile.linux" !! 2%nat = Some "-t" ∧
    build_cmd "linux" "Dockerfile.linux" !! 3%nat = Some tag ∧
    last (run_cmd env_linux "linux") = Some tag.
Proof.
  apply (executor_runs_the_built_image env_linux fs_empty
           ["/bin/bash"; "./scripts/bootstrap/install-docker.sh"]).
  vm_compute. reflexivity.
Defined.

(** ** The configuration, when it loads *)

(** X8. When the configuration file loads to a non-empty object, the
    driver shows its [cef_version] and [build_type] after the banner, in
    this order, a missing key being shown as ['latest'], respectively
    ['Release'], and goes on to its pipeline. *)
Theorem config_object_is_displayed (E : env) (fs : filesystem)
    (items : list (string * pyobj)) :
  help_requested E = false →
  config_resource E = Some (Ok (PyDict items)) → items ≠ [] →
  main E fs =
  after [info_line E "BuildingCEF - Cross-platform CEF build system (Pure Python)";
         info_line E "Starting CEF build process...";
         PrintFmt (Colors.BLUE E +:+ "[INFO]" +:+ Colors.NC E +:+ " "
                   +:+ "Using CEF version: ")
                  (default (PyStr "latest") (dict_lookup "cef_version" items));
         PrintFmt (Colors.BLUE E +:+ "[INFO]" +:+ Colors.NC E +:+ " " +:+ "Build type: ")
                  (default (PyStr "Release") (dict_lookup "build_type" items))]
        (try_except (main_steps E) (main_handlers E) fs).
Proof.
  unfold help_requested. intros Hhelp Hcfg Hne. unfold main, load_config.
  rewrite Hhelp, Hcfg.
  set (T := try_except (main_steps E) (main_handlers E)). clearbody T.
  exec. destruct items as [|item items]; [done|].
  change (truthy (PyDict (item :: items))) with true. cbn [py_get]. exec.
  by destruct (T fs).
Qed.

Lemma config_object_is_displayed_witness :
  ∃ prefix prefix',
    trace (main env_config_object fs_empty) !! 2%nat =
      Some (PrintFmt prefix (PyStr "120.1.10")) ∧
    trace (main env_config_object fs_empty) !! 3%nat =
      Some (PrintFmt prefix' (PyStr "Release")).
Proof.
  rewrite (config_object_is_displayed env_config_object fs_empty
             [("cef_version", PyStr "120.1.10")] eq_refl eq_refl); [|discriminate].
  do 2 eexists. split; reflexivity.
Defined.

(** X9. When the configuration file loads to a value that Python counts
    as false (an empty object or list, [null], [0], an empty string,
    [false]), the driver shows nothing of it and goes on as without a
    file.  When it loads to a true value that is not an object, the
    [AttributeError] of the first [config.get] leaves [main] after the
    banner, before the pipeline. *)
Theorem config_other_values (E : env) (fs : filesystem) (loaded : pyobj) :
  help_requested E = false →
  config_resource E = Some (Ok loaded) →
  (truthy loaded = false →
   main E fs =
   after [info_line E "BuildingCEF - Cross-platform CEF build system (Pure Python)";
          info_line E "Starting CEF build process..."]
         (try_except (main_steps E) (main_handlers E) fs)) ∧
  (truthy loaded = true → (∀ items, loaded ≠ PyDict items) →
   main E fs =
   Done (Raise (mk_exn AttributeError
                  ("'" +:+ type_name loaded +:+ "' object has no attribute 'get'")))
        fs
        [info_line E "BuildingCEF - Cross-platform CEF build system (Pure Python)";
         info_line E "Starting CEF build process..."]).
Proof.
  unfold help_requested. intros Hhelp Hcfg. unfold main, load_config.
  rewrite Hhelp, Hcfg.
  set (T := try_except (main_steps E) (main_handlers E)). clearbody T.
  exec. split.
  - intros ->. exec. by destruct (T fs).
  - intros -> Hnot. destruct loaded; cbn [py_get type_name]; try done.
    by destruct (Hnot items).
Qed.

Lemma config_other_values_witness :
  (∃ r, main env_config_null fs_empty =
        after [info_line env_config_null
                 "BuildingCEF - Cross-platform CEF build system (Pure Python)";
               info_line env_config_null "Starting CEF build process..."] r) ∧
  value (main env_config_list fs_empty) =
    Raise (mk_exn AttributeError "'list' object has no attribute 'get'").
Proof.
  split.
  - eexists.
    apply (proj1 (config_other_values env_config_null fs_empty PyNone eq_refl eq_refl)).
    reflexivity.
  - rewrite (proj2 (config_other_values env_config_list fs_empty
                      (PyList [PyStr "cef_version"]) eq_refl eq_refl));
      [reflexivity|reflexivity|discriminate].
Defined.

(** ** Exit statuses *)

Lemma main_help_run (E : env) (fs : filesystem) :
  help_requested E = true → main E fs = Done (Ok 0) fs [Print (help_text E)].
Proof. unfold help_requested, main. by intros ->. Qed.

(** Without a help flag, [main] either lets an exception of the
    configuration out, having started nothing, or gets to its [try]
    statement. *)
Lemma main_no_help_cases (E : env) (fs : filesystem) :
  help_requested E = false →
  (∃ e t, main E fs = Done (Raise e) fs t ∧ commands t = [] ∧ written t = []) ∨
  reaches_pipeline E fs.
Proof.
  unfold help_requested, reaches_pipeline, main. intros ->.
  set (T := try_except (main_steps E) (main_handlers E)). clearbody T.
  unfold load_config.
  destruct (config_resource E) as [[config|e]|]; exec.
  - destruct (truthy config).
    + destruct config; cbn [py_get]; try (left; by do 2 eexists).
      right. destruct (T fs) as [v fs' t'].
      eexists [_; _; _; _]. split_and!; cycle 2; [reflexivity|reflexivity..].
    + right. destruct (T fs) as [v fs' t'].
      eexists [_; _]. split_and!; cycle 2; [reflexivity|reflexivity..].
  - left. by do 2 eexists.
  - change (truthy (PyDict [])) with false. exec.
    right. destruct (T fs) as [v fs' t'].
    eexists [_; _]. split_and!; cycle 2; [reflexivity|reflexivity..].
Qed.

(** The [try] body of [main], by the outcome of the host resolver and of
    the privilege gate. *)
Lemma main_steps_run (E : env) (fs : filesystem) :
  match value (detect_os E fs) with
  | Raise e => main_steps E fs = Done (Raise e) fs []
  | Ok host_os =>
      let p := check_privileges E host_os fs in
      let t := info_line E ("Detected operating system: " +:+ host_os) :: trace p in
      match value p with
      | Ok true => main_steps E fs = after t (pipeline E host_os fs)
      | v => main_steps E fs = Done (stopped v) fs t
      end
  end.
Proof.
  destruct (value (detect_os E fs)) as [host_os|e] eqn:Hhost.
  - cbv zeta.
    destruct (check_privileges_state E host_os fs) as (Hps & _).
    destruct (value (check_privileges E host_os fs)) as [[]|e] eqn:Hpriv.
    + by apply main_steps_pipeline.
    + unfold main_steps.
      rewrite bind_run, detect_os_run, Hhost. cbn [value state trace].
      rewrite bind_run. cbn [log_info print value state trace].
      rewrite bind_run, Hpriv. cbn [negb]. rewrite Hps.
      exec. by rewrite app_nil_r.
    + unfold main_steps.
      rewrite bind_run, detect_os_run, Hhost. cbn [value state trace].
      rewrite bind_run. cbn [log_info print value state trace].
      rewrite bind_run, Hpriv. by rewrite Hps.
  - unfold main_steps. by rewrite bind_run, detect_os_run, Hhost.
Qed.

Lemma launches_nonempty (E : env) (b d x : list string) : launches E b d x ≠ [].
Proof.
  unfold launches.
  destruct (step_verdict (subprocess_run_outcome E b)) as [[]|]; try done.
  by destruct (step_verdict (subprocess_run_outcome E d)) as [[]|].
Qed.

(** A run that exits with status 0 without a help flag has started
    subprocesses. *)
Lemma main_success_launched (E : env) (fs : filesystem) :
  help_requested E = false → value (main E fs) = Ok 0 →
  commands (trace (main E fs)) ≠ [].
Proof.
  intros Hhelp Hv.
  destruct (main_no_help_cases E fs Hhelp) as [(e & t & Hm & _)|Hreach].
  { by rewrite Hm in Hv. }
  rewrite (reaches_pipeline_value E fs Hreach) in Hv. apply handled_success in Hv.
  destruct Hreach as (t & _ & _ & ->). cbn [after trace].
  rewrite commands_app.
  destruct (try_main_obs E (main_steps E) fs) as (_ & _ & -> & _).
  pose proof (main_steps_run E fs) as Hrun.
  destruct (value (detect_os E fs)) as [host_os|e] eqn:Hhost;
    [|by rewrite Hrun in Hv].
  cbv zeta in Hrun.
  destruct (value (check_privileges E host_os fs)) as [[]|e];
    [|by rewrite Hrun in Hv..].
  rewrite Hrun. cbn [after trace commands]. rewrite !commands_app.
  destruct (host_lookups host_os (detect_os_host E fs host_os Hhost))
    as (script_path & cmd_prefix & dockerfile & Hsm & Hdm).
  destruct (pipeline_obs E fs _ _ _ _ Hsm Hdm) as (_ & -> & _).
  intros Hnil. apply app_eq_nil in Hnil as (_ & Hnil).
  apply app_eq_nil in Hnil as (_ & Hnil). by apply launches_nonempty in Hnil.
Qed.

(** X10. Exit status 0 is sound.  With a help flag anywhere among the
    arguments the driver prints the help text and does nothing else,
    whatever the configuration file and the host.  Without one, status 0
    means that the bootstrap script, [docker build] and [docker run] of
    the detected host were started, in this order, that each exited 0,
    and that this run wrote the completion marker. *)
Theorem exit_status_0_sound (E : env) (fs : filesystem) :
  (help_requested E = true → main E fs = Done (Ok 0) fs [Print (help_text E)]) ∧
  (help_requested E = false → value (main E fs) = Ok 0 →
   ∃ host_os b d,
     value (detect_os E fs) = Ok host_os ∧
     bootstrap_cmd host_os = Some b ∧ image_build_cmd host_os = Some d ∧
     commands (trace (main E fs)) = [b; d; run_cmd E host_os] ∧
     (∀ c, c ∈ commands (trace (main E fs)) →
           ∃ result, subprocess_run_outcome E c = Ok result ∧ returncode result = 0) ∧
     written (trace (main E fs)) = [(marker_file E, marker_text E)] ∧
     files (state (main E fs)) !! marker_file E = Some (marker_text E)).
Proof.
  split; [apply main_help_run|]. intros Hhelp Hv.
  pose proof (main_success_launched E fs Hhelp Hv) as Hcs.
  destruct (main_launched E fs Hcs)
    as (host_os & script_path & cmd_prefix & dockerfile & Hhost & _ & Hsm & Hdm & H).
  cbv zeta in H. destruct H as (Hval & Hc & Hfull & _).
  rewrite Hv in Hval. symmetry in Hval. apply handled_success in Hval.
  exists host_os, (cmd_prefix ++ [script_path])%list, (build_cmd host_os dockerfile).
  unfold pipeline_value, launches in *.
  destruct (step_verdict (subprocess_run_outcome E (cmd_prefix ++ [script_path])))
    as [[]|] eqn:Hb; try done.
  destruct (step_verdict (subprocess_run_outcome E (build_cmd host_os dockerfile)))
    as [[]|] eqn:Hd; try done.
  destruct (step_verdict (subprocess_run_outcome E (run_cmd E host_os)))
    as [[]|] eqn:Hx; try done.
  destruct (Hfull eq_refl) as (Hs & Hw).
  destruct (run_cef_container_frame E fs host_os) as (_ & _ & Hf & Hwr).
  cbv zeta in Hf, Hwr. rewrite run_cef_container_value, Hx in Hf, Hwr.
  rewrite bool_decide_eq_true_2 in Hf, Hwr by done.
  rewrite Hc, Hs, Hw, Hf, Hwr. split_and!; try done.
  - unfold bootstrap_cmd. by rewrite Hsm.
  - unfold image_build_cmd. by rewrite Hdm.
  - intros c Hin. apply step_verdict_true.
    repeat (apply elem_of_cons in Hin as [-> |Hin]; [done|]).
    by apply elem_of_nil in Hin.
  - apply lookup_insert_eq.
Qed.

Lemma exit_status_0_sound_witness :
  main env_help fs_empty = Done (Ok 0) fs_empty [Print (help_text env_help)] ∧
  files (state (main env_linux fs_empty)) !! "/work/builds/cef_build_complete.marker" =
    Some ("CEF build completed successfully at 2024-03-05T14:07:09.000123" +:+ LF).
Proof.
  split.
  - apply (exit_status_0_sound env_help fs_empty). reflexivity.
  - destruct (proj2 (exit_status_0_sound env_linux fs_empty) eq_refl eq_refl)
      as (host_os & b & d & _ & _ & _ & _ & _ & _ & Hmarker).
    exact Hmarker.
Defined.

(** The effects of [try: body  except ...] with the handlers of [main]:
    those of the body, followed by the handler's one line. *)
Lemma try_main_trace (E : env) (body : M Z) (fs : filesystem) :
  trace (try_except body (main_handlers E) fs) =
  (trace (body fs) ++
   match value (body fs) with
   | Ok _ => []
   | Raise e =>
       if isinstance_KeyboardInterrupt e then
         [warning_line E "Build process interrupted by user"]
       else if isinstance_Exception e then
         [error_line E ("Build process failed: " +:+ exc_str e)]
       else []
   end)%list.
Proof.
  rewrite try_except_run. unfold main_handlers.
  destruct (value (body fs)) as [n|e]; [by rewrite app_nil_r|].
  destruct (isinstance_KeyboardInterrupt e); [done|].
  destruct (isinstance_Exception e); [done|by rewrite app_nil_r].
Qed.

(** X11. The driver returns no exit status but 0, 1 and 130.  Once in
    its [try] statement it lets no [Exception] and no
    [KeyboardInterrupt] out: an [Exception] raised anywhere in the steps
    becomes exit status 1, after a last line with the text of the
    exception. *)
Theorem main_contains_exceptions (E : env) (fs : filesystem) :
  (∀ status : Z,
     value (main E fs) = Ok status → status = 0 ∨ status = 1 ∨ status = 130) ∧
  (∀ e : exn,
     reaches_pipeline E fs → value (main E fs) = Raise e →
     isinstance_Exception e = false ∧ isinstance_KeyboardInterrupt e = false) ∧
  (∀ e : exn,
     reaches_pipeline E fs → value (main_steps E fs) = Raise e →
     isinstance_KeyboardInterrupt e = false → isinstance_Exception e = true →
     value (main E fs) = Ok 1 ∧
     last (trace (main E fs)) =
       Some (error_line E ("Build process failed: " +:+ exc_str e))).
Proof.
  split_and!.
  - intros status. apply main_exit_statuses.
  - intros e Hreach. rewrite (reaches_pipeline_value E fs Hreach).
    unfold handled. destruct (value (main_steps E fs)) as [n|e']; [done|].
    destruct (isinstance_KeyboardInterrupt e') eqn:Hki; [done|].
    destruct (isinstance_Exception e') eqn:Hex; [done|]. by intros [= <-].
  - intros e Hreach Hraise Hki Hex. split.
    + rewrite (reaches_pipeline_value E fs Hreach), Hraise. cbn. by rewrite Hki, Hex.
    + destruct Hreach as (t & _ & _ & ->). cbn [after trace].
      rewrite try_main_trace, Hraise, Hki, Hex. by rewrite !app_assoc, last_snoc.
Qed.

Lemma main_contains_exceptions_witness :
  (isinstance_Exception (mk_exn SystemExit "3") = false ∧
   isinstance_KeyboardInterrupt (mk_exn SystemExit "3") = false) ∧
  value (main env_freebsd fs_empty) = Ok 1 ∧
  last (trace (main env_freebsd fs_empty)) =
    Some (error_line env_freebsd
            "Build process failed: Unsupported operating system: freebsd").
Proof.
  assert (reaches_pipeline env_linux_system_exit fs_empty) as Hreach.
  { eexists [_; _]. split_and!; cycle 2; [vm_compute; reflexivity|reflexivity..]. }
  assert (reaches_pipeline env_freebsd fs_empty) as Hreach'.
  { eexists [_; _]. split_and!; cycle 2; [vm_compute; reflexivity|reflexivity..]. }
  destruct (main_contains_exceptions env_linux_system_exit fs_empty)
    as (_ & Hout & _).
  destruct (main_contains_exceptions env_freebsd fs_empty) as (_ & _ & Hin).
  split.
  - apply Hout; [exact Hreach|]. vm_compute. reflexivity.
  - apply (Hin (mk_exn Exception "Unsupported operating system: freebsd"));
      [exact Hreach'|reflexivity..].
Defined.

(** ** The last line *)

Lemma check_privileges_false_trace (E : env) (host_os : string) (fs : filesystem) :
  value (check_privileges E host_os fs) = Ok false →
  trace (check_privileges E host_os fs) =
  [error_line E "Windows builds require Administrator privileges";
   info_line E "Please run 'python build.py' from an Administrator PowerShell/Command Prompt"].
Proof.
  unfold check_privileges. case_bool_decide; [|done].
  destruct (IsUserAnAdmin E) as [n|e]; exec.
  - by destruct (n =? 0)%Z.
  - by destruct (isinstance_Exception e).
Qed.

(** The pipeline returns 0 or 1; its last line is the announcement that
    the artifacts are ready in the first case, an error line in the
    second. *)
Lemma pipeline_last (E : env) (host_os : string) (fs : filesystem) :
  let r := pipeline E host_os fs in
  match value r with
  | Ok status =>
      (status = 0 ∧
       last (trace r) =
         Some (info_line E "Your CEF build artifacts are ready in the 'builds/' directory")) ∨
      (status = 1 ∧ ∃ message, last (trace r) = Some (error_line E message))
  | Raise _ => True
  end.
Proof.
  cbv zeta. unfold pipeline, guarded.
  destruct (value (run_bootstrap_script E host_os fs)) as [[]|]; cbn [after value trace].
  2: { right. split; [done|]. eexists. by rewrite last_snoc. }
  2: done.
  destruct (value (build_cef_container E host_os _)) as [[]|]; cbn [after value trace].
  2: { right. split; [done|]. eexists. by rewrite !app_assoc, last_snoc. }
  2: done.
  destruct (value (run_cef_container E host_os _)) as [[]|]; cbn [after value trace].
  - left. split; [done|]. by rewrite !last_app.
  - right. split; [done|]. eexists. by rewrite !app_assoc, last_snoc.
  - done.
Qed.

(** X12. The last line the driver prints tells its exit status: with
    status 0 it is the help text or the announcement that the artifacts
    are ready; with status 130 the warning that the user interrupted the
    build; with status 1 an error line, or, when the privilege gate
    blocked the run, the advice to re-run as Administrator that follows
    the gate's error line. *)
Theorem last_line_tells_outcome (E : env) (fs : filesystem) :
  let r := main E fs in
  (value r = Ok 0 →
   last (trace r) = Some (Print (help_text E)) ∨
   last (trace r) =
     Some (info_line E "Your CEF build artifacts are ready in the 'builds/' directory")) ∧
  (value r = Ok 130 →
   last (trace r) = Some (warning_line E "Build process interrupted by user")) ∧
  (value r = Ok 1 →
   (∃ message, last (trace r) = Some (error_line E message)) ∨
   (suffix
      [error_line E "Windows builds require Administrator privileges";
       info_line E "Please run 'python build.py' from an Administrator PowerShell/Command Prompt"]
      (trace r))).
Proof.
  cbv zeta.
  destruct (help_requested E) eqn:Hhelp.
  { rewrite (main_help_run E fs Hhelp). cbn. split_and!; [by left|done..]. }
  destruct (main_no_help_cases E fs Hhelp) as [(e & t & -> & _)|Hreach].
  { by cbn. }
  rewrite (reaches_pipeline_value E fs Hreach).
  destruct Hreach as (t & _ & _ & ->). cbn [after trace].
  rewrite try_main_trace.
  pose proof (main_steps_run E fs) as Hrun.
  destruct (value (detect_os E fs)) as [host_os|e] eqn:Hhost.
  2: { rewrite Hrun. cbn [value trace handled stopped]. destruct (isinstance_KeyboardInterrupt e).
       - split_and!; try done. intros _. by rewrite ?app_assoc, last_snoc.
       - destruct (isinstance_Exception e); split_and!; try done.
         intros _. left. eexists. by rewrite ?app_assoc, last_snoc. }
  cbv zeta in Hrun.
  destruct (value (check_privileges E host_os fs)) as [[]|e] eqn:Hpriv.
  - rewrite Hrun. cbn [after value trace].
    pose proof (pipeline_last E host_os fs) as Hlast. cbv zeta in Hlast.
    destruct (value (pipeline E host_os fs)) as [status|e]; cbn [handled].
    + rewrite app_nil_r.
      destruct Hlast as [(-> & Hl)|(-> & message & Hl)]; split_and!; try done.
      * intros _. right. by rewrite !last_app, Hl.
      * intros _. left. exists message. by rewrite !last_app, Hl.
    + destruct (isinstance_KeyboardInterrupt e).
      * split_and!; try done. intros _. by rewrite ?app_assoc, last_snoc.
      * destruct (isinstance_Exception e); split_and!; try done.
        intros _. left. eexists. by rewrite ?app_assoc, last_snoc.
  - rewrite Hrun. cbn [value trace handled stopped]. split_and!; try done.
    intros _. right.
    rewrite (check_privileges_false_trace E host_os fs Hpriv), app_nil_r.
    by eexists (_ ++ [_])%list; rewrite <- app_assoc.
  - rewrite Hrun. cbn [value trace handled stopped]. destruct (isinstance_KeyboardInterrupt e).
    + split_and!; try done. intros _. by rewrite ?app_assoc, last_snoc.
    + destruct (isinstance_Exception e); split_and!; try done.
      intros _. left. eexists. by rewrite ?app_assoc, last_snoc.
Qed.

Lemma last_line_tells_outcome_witness :
  last (trace (main env_linux_interrupted fs_empty)) =
    Some (warning_line env_linux_interrupted "Build process interrupted by user") ∧
  last (trace (main env_linux fs_empty)) =
    Some (info_line env_linux
            "Your CEF build artifacts are ready in the 'builds/' directory").
Proof.
  split.
  - apply (last_line_tells_outcome env_linux_interrupted fs_empty). reflexivity.
  - destruct (proj1 (last_line_tells_outcome env_linux fs_empty) eq_refl) as [H|H];
      [discriminate H|exact H].
Defined.

(** ** The driver's footprint *)

(** X13. All the driver ever does to the file system is to create the
    output directory and to write the completion marker.  It writes the
    marker at most once, and only in a run that exits with status 0;
    every other file is as it was, every directory is still there, and
    a run that starts fewer than three subprocesses changes nothing at
    all. *)
Theorem driver_footprint (E : env) (fs : filesystem) :
  let r := main E fs in
  (written (trace r) = [] ∨ written (trace r) = [(marker_file E, marker_text E)]) ∧
  (written (trace r) ≠ [] → value r = Ok 0) ∧
  (∀ path : string, path ≠ marker_file E → files (state r) !! path = files fs !! path) ∧
  (value r ≠ Ok 0 → files (state r) = files fs) ∧
  (dirs (state r) = dirs fs ∨ dirs (state r) = {[builds_dir E]} ∪ dirs fs) ∧
  (length (commands (trace r)) < 3 → state r = fs)%nat.
Proof.
  cbv zeta.
  destruct (decide (commands (trace (main E fs)) = [])) as [Hnil|Hcs].
  { destruct (main_shape E fs) as [(Hs & _ & Hw)|(host_os & Hhost & _ & _ & _ & Hc & _)].
    - rewrite Hs, Hw. split_and!; by auto.
    - destruct (host_lookups host_os (detect_os_host E fs host_os Hhost))
        as (script_path & cmd_prefix & dockerfile & Hsm & Hdm).
      destruct (pipeline_obs E fs _ _ _ _ Hsm Hdm) as (_ & Hl & _).
      rewrite Hnil, Hl in Hc. symmetry in Hc. by apply launches_nonempty in Hc. }
  destruct (main_launched E fs Hcs)
    as (host_os & script_path & cmd_prefix & dockerfile & _ & _ & _ & _ & H).
  cbv zeta in H. destruct H as (Hv & Hc & Hfull & Hpart).
  destruct (run_cef_container_frame E fs host_os) as (_ & Hd & Hf & Hwr).
  cbv zeta in Hd, Hf, Hwr. rewrite run_cef_container_value in Hf, Hwr.
  rewrite Hv, Hc. unfold launches, pipeline_value in *.
  destruct (step_verdict (subprocess_run_outcome E (cmd_prefix ++ [script_path])))
    as [[]|] eqn:Hb;
    [destruct (step_verdict (subprocess_run_outcome E (build_cmd host_os dockerfile)))
       as [[]|] eqn:Hdv|..].
  2-5: destruct Hpart as (-> & ->); [done|]; split_and!; by auto.
  destruct (Hfull eq_refl) as (-> & ->). rewrite Hd, Hf, Hwr.
  destruct (step_verdict (subprocess_run_outcome E (run_cmd E host_os))) as [[]|e].
  - rewrite bool_decide_eq_true_2 by done. split_and!; try by auto.
    + intros path Hne. by rewrite lookup_insert_ne.
    + cbn. lia.
  - rewrite bool_decide_eq_false_2 by done. split_and!; try by auto. cbn. lia.
  - rewrite bool_decide_eq_false_2 by done. split_and!; try by auto. cbn. lia.
Qed.

Lemma driver_footprint_witness :
  value (main env_linux fs_empty) = Ok 0 ∧
  state (main env_linux_build_fails fs_empty) = fs_empty ∧
  files (state (main env_linux_run_fails fs_empty)) = files fs_empty.
Proof.
  destruct (driver_footprint env_linux fs_empty) as (_ & Hzero & _).
  destruct (driver_footprint env_linux_build_fails fs_empty)
    as (_ & _ & _ & _ & _ & Hsame).
  destruct (driver_footprint env_linux_run_fails fs_empty) as (_ & _ & _ & Hfiles & _).
  split_and!.
  - apply Hzero. vm_compute. discriminate.
  - apply Hsame. vm_compute. lia.
  - apply Hfiles. vm_compute. discriminate.
Defined.

(** ** The bootstrap step's transparency *)



(** ** Leftovers *)
















(** ** Stops before and inside the pipeline *)







